(** * Batch drivers for FSL FEAT: a shallow embedding

    The repository holds four Python scripts that drive FSL's [feat] over the
    runs of an fMRI session.  Two of them are embedded here:

    - [analysis_code/fMRI/P6/batchFEAT_main.py], which rewrites fixed-format
      lines of a design template with [re.sub] (module [FEAT]);
    - [analysis_code/fMRI/P8/batchGLM1.py], which fills named placeholders
      with [str.format] (module [GLM1]).  The two remaining scripts
      ([P7/batchGLM2_onlypost.py], [P8/batchGLM2_onlypostcue_control.py])
      differ from it only in the names of the template, of the log file and
      of the keys of [params].

    The scripts are effectful: they read and write files, change the working
    directory and start child processes.  The embedding threads an explicit
    [world] through a state-and-exception monad.  What the scripts obtain
    from the operating system and from the Python library without fixing its
    behaviour themselves (the child processes, [shlex.split], [int], [float],
    ...) is a [runtime] record that every definition takes as a parameter.

    Left out: the records the scripts send to their logger (standard output
    and, for the GLM drivers, the file [GLM.log]).  Paths are compared as
    the strings the scripts build, without normalisation. *)

From Stdlib Require Import ZArith Ascii String List Lia.
From stdpp Require Import base option list gmap strings pretty.

Set Default Proof Using "Type".

#[local] Arguments String.append !_ _ / : simpl nomatch.

(* ===================================================================== *)
(** * Part I: the programs                                                *)
(* ===================================================================== *)

(** ** Python strings

    A text is a [string], one [ascii] for each character: the manifests and
    the design files of FSL are ASCII texts. *)

Module PyStr.

Definition nl : ascii := "010"%char.
Definition slash : ascii := "/"%char.
Definition dquote_char : ascii := "034"%char.

(** The one-character strings: a slash, a double quote. *)
Definition sep : string := String slash EmptyString.
Definition dquote : string := String dquote_char EmptyString.

(** [s[0:n]] *)
Fixpoint take (n : nat) (s : string) : string :=
  match n, s with
  | S n', String c r => String c (take n' r)
  | _, _ => EmptyString
  end.

(** [s[n:]] *)
Fixpoint drop (n : nat) (s : string) : string :=
  match n, s with
  | S n', String _ r => drop n' r
  | _, _ => s
  end.

(** [s[-n:]] for [n > 0] *)
Definition last_n (n : nat) (s : string) : string :=
  drop (String.length s - n) s.

(** [s.startswith(k)], returning the rest of [s] *)
Fixpoint strip_prefix (k s : string) : option string :=
  match k, s with
  | EmptyString, _ => Some s
  | String a k', String b s' =>
      if Ascii.eqb a b then strip_prefix k' s' else None
  | String _ _, EmptyString => None
  end.

Definition starts_with (k s : string) : bool :=
  match strip_prefix k s with Some _ => true | None => false end.

Fixpoint ends_with_char (c : ascii) (s : string) : bool :=
  match s with
  | EmptyString => false
  | String a EmptyString => Ascii.eqb a c
  | String _ r => ends_with_char c r
  end.

(** No line feed occurs in [s]. *)
Fixpoint single_line (s : string) : bool :=
  match s with
  | EmptyString => true
  | String c r => negb (Ascii.eqb c nl) && single_line r
  end.

(** [s] up to its first line feed, and the rest from that line feed on. *)
Fixpoint break_line (s : string) : string * string :=
  match s with
  | EmptyString => (EmptyString, EmptyString)
  | String c r =>
      if Ascii.eqb c nl then (EmptyString, s)
      else let '(l, rest) := break_line r in (String c l, rest)
  end.

(** [s.rpartition(t)]: the text before and after the last occurrence of
    [t] in [s]. *)
Fixpoint rsplit (t s : string) : option (string * string) :=
  match s with
  | EmptyString =>
      match t with
      | EmptyString => Some (EmptyString, EmptyString)
      | _ => None
      end
  | String c r =>
      match rsplit t r with
      | Some (a, b) => Some (String c a, b)
      | None =>
          match strip_prefix t s with
          | Some b => Some (EmptyString, b)
          | None => None
          end
      end
  end.

(** Iterating over a text file opened for reading: the lines of the
    content, each with its terminating line feed (the last line has one
    only if the file ends with one).  Text mode has already turned the
    other line endings into line feeds. *)
Fixpoint file_lines (s : string) : list string :=
  match s with
  | EmptyString => []
  | String c r =>
      if Ascii.eqb c nl then String c EmptyString :: file_lines r
      else match file_lines r with
           | [] => [String c EmptyString]
           | l :: ls => String c l :: ls
           end
  end.

(** [posixpath.join(a, b)] *)
Definition path_join (a b : string) : string :=
  if starts_with sep b then b
  else match a with
       | EmptyString => b
       | _ => if ends_with_char slash a then a +:+ b else a +:+ sep +:+ b
       end.

Definition is_abs (p : string) : bool := starts_with sep p.

(** [p[:p.rfind('/') + 1]] *)
Fixpoint head_to_last_slash (p : string) : string :=
  match p with
  | EmptyString => EmptyString
  | String c r =>
      match head_to_last_slash r with
      | EmptyString => if Ascii.eqb c slash then sep else EmptyString
      | h => String c h
      end
  end.

(** [s.rstrip('/')] *)
Fixpoint rstrip_slash (s : string) : string :=
  match s with
  | EmptyString => EmptyString
  | String c r =>
      match rstrip_slash r with
      | EmptyString => if Ascii.eqb c slash then EmptyString else String c EmptyString
      | r' => String c r'
      end
  end.

(** [posixpath.dirname(p)] *)
Definition dirname (p : string) : string :=
  let head := head_to_last_slash p in
  match rstrip_slash head with
  | EmptyString => head
  | h => h
  end.

(** [posixpath.basename(p)]: [p[p.rfind('/') + 1:]] *)
Definition basename (p : string) : string :=
  drop (String.length (head_to_last_slash p)) p.

(** [p] and the directories above it, nearest first. *)
Fixpoint parents (fuel : nat) (p : string) : list string :=
  match fuel with
  | O => [p]
  | S n =>
      let d := dirname p in
      if String.eqb d p then [p]
      else match d with
           | EmptyString => [p]
           | _ => p :: parents n d
           end
  end.

End PyStr.

(** ** The Python runtime: exceptions, the world, subprocesses *)

Module Py.
Import PyStr.

Inductive exn : Type :=
| RuntimeError (msg : string)
| KeyError (key : string)
| IndexError
| ValueError (msg : string)
| TypeError
| AttributeError
| OSError (kind path : string)
| ReError (msg : string).

Inductive result (A : Type) : Type :=
| Ok (a : A)
| Raise (e : exn).
Arguments Ok {A} a.
Arguments Raise {A} e.

Definition is_ok {A} (r : result A) : bool :=
  match r with Ok _ => true | Raise _ => false end.

(** Files by absolute path, and the directories that exist. *)
Record fsys : Type := Fsys {
  files : gmap string string;
  dirs : gset string
}.

(** What the claims observe of a batch: the processes started and the
    files written, in order. *)
Inductive event : Type :=
| EvExec (sargs : list string)
| EvWrite (path content : string).

Record world : Type := World {
  cwd : string;
  fs : fsys;
  trace : list event
}.

(** [subprocess.CompletedProcess] *)
Record CompletedProcess : Type := Completed {
  args : list string;
  returncode : Z;
  stdout : option string
}.

(** Values stored in the [params] dictionary. *)
Inductive value : Type :=
| VStr (s : string)
| VInt (n : Z).

(** A compiled replacement text of [re.sub]. *)
Inductive repl_item : Type :=
| RGroup (n : nat)
| RLit (s : string).

(** The parts of the operating system and of the Python library whose
    behaviour the scripts rely on but do not determine.
    - [spawn sargs capture w] is the child process of
      [subprocess.run(sargs)] started in [w]: either the launch fails, or
      the child exits with a status and the bytes it wrote to its standard
      output; it may leave the file system changed, it cannot change the
      working directory of the parent;
    - [compile_template] compiles the replacement text of [re.sub] for a
      pattern with one group;
    - [format_extended] renders a [str.format] field that has an attribute
      or index, a conversion or a format specification. *)
Record runtime : Type := Runtime {
  shlex_split : string -> result (list string);
  spawn : list string -> bool -> world -> result (Z * string) * fsys;
  abspath : string -> string -> string;
  expanduser : string -> string;
  compile_template : string -> result (list repl_item);
  py_int : string -> result Z;
  pyfloat : Type;
  py_float : string -> result pyfloat;
  format_6f : pyfloat -> string;
  format_extended :
    value -> string -> option ascii -> string -> gmap string value -> result string;
  repr_args : list string -> string;
  repr_bytes : string -> string
}.

(** *** The monad of the scripts: state and exceptions *)

Definition M (A : Type) : Type := world -> result A * world.

Definition ret {A} (a : A) : M A := fun w => (Ok a, w).
Definition raise {A} (e : exn) : M A := fun w => (Raise e, w).
Definition bind {A B} (m : M A) (k : A -> M B) : M B :=
  fun w =>
    match m w with
    | (Ok a, w') => k a w'
    | (Raise e, w') => (Raise e, w')
    end.
Definition lift {A} (r : result A) : M A := fun w => (r, w).

Declare Scope py_scope.
Delimit Scope py_scope with py.
Notation "x <- m ;; k" := (bind m (fun x => k))
  (at level 100, m at next level, right associativity) : py_scope.
Notation "m ;;; k" := (bind m (fun _ => k))
  (at level 100, right associativity) : py_scope.
Local Open Scope py_scope.

(** [for x in xs: body x] *)
Fixpoint for_each {A} (xs : list A) (body : A -> M unit) : M unit :=
  match xs with
  | [] => ret tt
  | x :: rest => body x ;;; for_each rest body
  end.

(** *** Files and directories *)

Definition resolve (w : world) (p : string) : string := path_join (cwd w) p.

(** [os.getcwd()] *)
Definition getcwd : M string := fun w => (Ok (cwd w), w).

(** [os.chdir(p)] *)
Definition chdir (p : string) : M unit :=
  fun w =>
    let q := resolve w p in
    if decide (q ∈ dirs (fs w)) then (Ok tt, World q (fs w) (trace w))
    else (Raise (OSError "FileNotFoundError" q), w).

(** [open(p, "r")] followed by [read()] *)
Definition read_file (p : string) : M string :=
  fun w =>
    let q := resolve w p in
    match files (fs w) !! q with
    | Some content => (Ok content, w)
    | None => (Raise (OSError "FileNotFoundError" q), w)
    end.

(** [open(p, "w")] followed by [write(content)]: the file is created or
    truncated. *)
Definition write_file (p content : string) : M unit :=
  fun w =>
    let q := resolve w p in
    if decide (q ∈ dirs (fs w)) then (Raise (OSError "IsADirectoryError" q), w)
    else if bool_decide (is_Some (files (fs w) !! q)) || bool_decide (dirname q ∈ dirs (fs w))
    then (Ok tt,
          World (cwd w)
                (Fsys (<[q := content]> (files (fs w))) (dirs (fs w)))
                (trace w ++ [EvWrite q content]))
    else (Raise (OSError "FileNotFoundError" q), w).

(** [os.makedirs(p, exist_ok=True)] *)
Definition makedirs (p : string) : M unit :=
  fun w =>
    let q := resolve w p in
    let ps := parents (String.length q) q in
    match List.find (fun d => bool_decide (is_Some (files (fs w) !! d))) ps with
    | Some d => (Raise (OSError "FileExistsError" d), w)
    | None =>
        (Ok tt,
         World (cwd w)
               (Fsys (files (fs w)) (dirs (fs w) ∪ list_to_set ps))
               (trace w))
    end.

(** [shutil.copy(src, dst)] *)
Definition copy (src dst : string) : M unit :=
  content <- read_file src ;;
  isdir <- (fun w => (Ok (bool_decide (resolve w dst ∈ dirs (fs w))), w)) ;;
  write_file (if isdir : bool then path_join dst (basename src) else dst) content.

(** *** Child processes *)

(** [subprocess.run(sargs)] or [subprocess.run(sargs, stdout=PIPE)] *)
Definition subprocess_run (rt : runtime) (sargs : list string) (capture : bool)
  : M CompletedProcess :=
  fun w =>
    match spawn rt sargs capture w with
    | (Ok (rc, out), fs') =>
        (Ok (Completed sargs rc (if capture then Some out else None)),
         World (cwd w) fs' (trace w ++ [EvExec sargs]))
    | (Raise e, fs') => (Raise e, World (cwd w) fs' (trace w))
    end.

(** [repr] of a [CompletedProcess] *)
Definition repr_completed (rt : runtime) (p : CompletedProcess) : string :=
  "CompletedProcess(args=" +:+ repr_args rt (args p)
    +:+ ", returncode=" +:+ pretty (returncode p)
    +:+ match stdout p with
        | Some out => ", stdout=" +:+ repr_bytes rt out
        | None => EmptyString
        end
    +:+ ")".

(** [str(v)] *)
Definition py_str (v : value) : string :=
  match v with
  | VStr s => s
  | VInt n => pretty n
  end.

End Py.

(** ** Regular expressions of the shape [(key).*tail]

    Every pattern the FEAT driver hands to [re.sub] is a literal key in a
    group, then [.*], then a literal tail (a double quote, or nothing):
    the key [set feat_files(1) ] and its opening quote up to the closing
    quote, the key [set fmri(npts) ] up to the end of the line, ...  With the
    default flags [.] matches every character but the line feed and [.*] is
    greedy, so a match beginning at some position is the key, followed by
    the text up to the last occurrence of the tail on the same line. *)

Module Re.
Import PyStr Py.

Record pattern : Type := Pattern {
  key : string;
  tail : string
}.

(** A match that begins at the first character of [s]: the text taken by
    [.*] and the length of the whole match. *)
Definition match_here (p : pattern) (s : string) : option (string * nat) :=
  match strip_prefix (key p) s with
  | None => None
  | Some r =>
      match rsplit (tail p) (fst (break_line r)) with
      | Some (v, _) =>
          Some (v, String.length (key p) + String.length v + String.length (tail p))
      | None => None
      end
  end.

(** Expansion of a compiled replacement for a match whose [.*] took [v];
    group 0 is the whole match, group 1 the key, and a group that took no
    part in the match expands to the empty string. *)
Definition expand_item (p : pattern) (v : string) (it : repl_item) : string :=
  match it with
  | RLit s => s
  | RGroup 0 => key p +:+ v +:+ tail p
  | RGroup 1 => key p
  | RGroup _ => EmptyString
  end.

Fixpoint expand (p : pattern) (v : string) (items : list repl_item) : string :=
  match items with
  | [] => EmptyString
  | it :: rest => expand_item p v it +:+ expand p v rest
  end.

(** The scan of [re.sub]: text outside the matches is copied, each match
    (leftmost first, not overlapping) is replaced; [skip] counts the
    characters of the current match still to pass over.  After an empty
    match the scan copies one character and goes on. *)
Fixpoint sub_from (p : pattern) (items : list repl_item) (skip : nat) (s : string)
  : string :=
  match s with
  | EmptyString =>
      match skip, match_here p EmptyString with
      | O, Some (v, _) => expand p v items
      | _, _ => EmptyString
      end
  | String c r =>
      match skip with
      | S k => sub_from p items k r
      | O =>
          match match_here p s with
          | Some (v, S n) => expand p v items +:+ sub_from p items n r
          | Some (v, O) => expand p v items +:+ String c (sub_from p items 0 r)
          | None => String c (sub_from p items 0 r)
          end
      end
  end.

(** [re.sub(pattern, repl, text)]: the replacement is compiled first,
    whether or not the pattern matches. *)
Definition re_sub (rt : runtime) (p : pattern) (repl text : string) : result string :=
  match compile_template rt repl with
  | Ok items => Ok (sub_from p items 0 text)
  | Raise e => Raise e
  end.

(** [re.search] for the key, a group around the greedy any-character
    loop, and the tail; then [.group(1)] of the match object.  [None] when
    there is no match. *)
Fixpoint re_search_value (p : pattern) (s : string) : option string :=
  match match_here p s with
  | Some (v, _) => Some v
  | None =>
      match s with
      | EmptyString => None
      | String _ r => re_search_value p r
      end
  end.

End Re.

(** ** [str.format] with keyword arguments only *)

Module Fmt.
Import PyStr Py.

(** What the scanner of [str.format] produces: literal characters and
    replacement fields (field name, conversion, format specification). *)
Inductive piece : Type :=
| PChar (c : ascii)
| PField (name : string) (conv : option ascii) (spec : string).

Inductive pstate : Type :=
| SText
| SOpen
| SClose
| SName (name : string)
| SIndex (name : string)
| SConv (name : string)
| SConvEnd (name : string) (cv : ascii)
| SSpec (name : string) (conv : option ascii) (depth : nat) (spec : string).

Definition snoc (s : string) (c : ascii) : string := s +:+ String c EmptyString.

(** The scan stops at the first malformed place and reports it. *)
Definition at_end (st : pstate) : option string :=
  match st with
  | SText => None
  | SOpen => Some "Single '{' encountered in format string"
  | SClose => Some "Single '}' encountered in format string"
  | SName _ | SIndex _ => Some "expected '}' before end of string"
  | SConv _ => Some "end of string while looking for conversion specifier"
  | SConvEnd _ _ | SSpec _ _ _ _ => Some "unmatched '{' in format spec"
  end.

Definition in_name (name : string) (c : ascii) (k : pstate -> list piece * option string)
  : list piece * option string :=
  if Ascii.eqb c "{" then ([], Some "unexpected '{' in field name")
  else if Ascii.eqb c "[" then k (SIndex (snoc name c))
  else if Ascii.eqb c "}" then
    let '(ps, e) := k SText in (PField name None EmptyString :: ps, e)
  else if Ascii.eqb c ":" then k (SSpec name None 1 EmptyString)
  else if Ascii.eqb c "!" then k (SConv name)
  else k (SName (snoc name c)).

Fixpoint scan (st : pstate) (s : string) : list piece * option string :=
  match s with
  | EmptyString => ([], at_end st)
  | String c r =>
      match st with
      | SText =>
          if Ascii.eqb c "{" then scan SOpen r
          else if Ascii.eqb c "}" then scan SClose r
          else let '(ps, e) := scan SText r in (PChar c :: ps, e)
      | SOpen =>
          if Ascii.eqb c "{" then
            let '(ps, e) := scan SText r in (PChar c :: ps, e)
          else in_name EmptyString c (fun st' => scan st' r)
      | SClose =>
          if Ascii.eqb c "}" then
            let '(ps, e) := scan SText r in (PChar c :: ps, e)
          else ([], Some "Single '}' encountered in format string")
      | SName name => in_name name c (fun st' => scan st' r)
      | SIndex name =>
          if Ascii.eqb c "]" then scan (SName (snoc name c)) r
          else scan (SIndex (snoc name c)) r
      | SConv name => scan (SConvEnd name c) r
      | SConvEnd name cv =>
          if Ascii.eqb c "}" then
            let '(ps, e) := scan SText r in (PField name (Some cv) EmptyString :: ps, e)
          else if Ascii.eqb c ":" then scan (SSpec name (Some cv) 1 EmptyString) r
          else ([], Some "expected ':' after conversion specifier")
      | SSpec name conv depth spec =>
          if Ascii.eqb c "{" then scan (SSpec name conv (S depth) (snoc spec c)) r
          else if Ascii.eqb c "}" then
            match depth with
            | S (S d) => scan (SSpec name conv (S d) (snoc spec c)) r
            | _ => let '(ps, e) := scan SText r in (PField name conv spec :: ps, e)
            end
          else scan (SSpec name conv depth (snoc spec c)) r
      end
  end.

(** A field name is an argument name followed by attribute and index
    lookups, which begin at the first dot or opening bracket. *)
Fixpoint split_arg (name : string) : string * string :=
  match name with
  | EmptyString => (EmptyString, EmptyString)
  | String c r =>
      if Ascii.eqb c "." || Ascii.eqb c "[" then (EmptyString, name)
      else let '(a, rest) := split_arg r in (String c a, rest)
  end.

Definition is_digit (c : ascii) : bool :=
  (48 <=? nat_of_ascii c) && (nat_of_ascii c <=? 57).

Fixpoint all_digits (s : string) : bool :=
  match s with
  | EmptyString => true
  | String c r => is_digit c && all_digits r
  end.

(** An empty or numeric argument name refers to a positional argument. *)
Definition positional (arg : string) : bool := all_digits arg.

Definition arg_name (name : string) : string := fst (split_arg name).

(** One replacement field: the argument is looked up first, then
    converted and formatted.  No positional argument is passed, so a
    positional field fails. *)
Definition render_field (rt : runtime) (params : gmap string value)
    (name : string) (conv : option ascii) (spec : string) : result string :=
  let '(arg, accessors) := split_arg name in
  if positional arg then Raise IndexError
  else match params !! arg with
       | None => Raise (KeyError arg)
       | Some v =>
           match accessors, conv, spec with
           | EmptyString, None, EmptyString => Ok (py_str v)
           | _, _, _ => format_extended rt v accessors conv spec params
           end
       end.

Fixpoint render (rt : runtime) (params : gmap string value) (ps : list piece)
  : result string :=
  match ps with
  | [] => Ok EmptyString
  | PChar c :: rest =>
      match render rt params rest with
      | Ok s => Ok (String c s)
      | Raise e => Raise e
      end
  | PField name conv spec :: rest =>
      match render_field rt params name conv spec with
      | Ok f =>
          match render rt params rest with
          | Ok s => Ok (f +:+ s)
          | Raise e => Raise e
          end
      | Raise e => Raise e
      end
  end.

(** [template.format] on the unpacked [params]: fields are rendered from left to right
    and the first failure is the one raised. *)
Definition format (rt : runtime) (template : string) (params : gmap string value)
  : result string :=
  let '(ps, err) := scan SText template in
  match render rt params ps with
  | Ok s =>
      match err with
      | None => Ok s
      | Some msg => Raise (ValueError msg)
      end
  | Raise e => Raise e
  end.

(** The argument names of the replacement fields of a template, in
    order. *)
Definition piece_names (ps : list piece) : list string :=
  flat_map (fun pc => match pc with
                      | PChar _ => []
                      | PField name _ _ => [arg_name name]
                      end) ps.

Definition placeholders (template : string) : list string :=
  piece_names (fst (scan SText template)).

End Fmt.

(** ** What the drivers share *)

Module Common.
Import PyStr Py.
Local Open Scope py_scope.

(** [run_command(scommand, capture_output)], the same function in all four
    scripts (they differ in the level of the log records only, which are
    left out here). *)
Definition run_command (rt : runtime) (scommand : string) (capture_output : bool)
  : M CompletedProcess :=
  sargs <- lift (shlex_split rt scommand) ;;
  process_results <- subprocess_run rt sargs capture_output ;;
  if negb (returncode process_results =? 0)%Z then
    raise (RuntimeError
             ("Received non-zero return code: " +:+ repr_completed rt process_results))
  else ret process_results.

(** [int(cresult.stdout)] *)
Definition int_of_stdout (rt : runtime) (cresult : CompletedProcess) : M Z :=
  match stdout cresult with
  | Some out => lift (py_int rt out)
  | None => raise TypeError
  end.

(** [float(cresult.stdout)] *)
Definition float_of_stdout (rt : runtime) (cresult : CompletedProcess)
  : M (pyfloat rt) :=
  match stdout cresult with
  | Some out => lift (py_float rt out)
  | None => raise TypeError
  end.

(** The command line that starts the analysis tool on a design file. *)
Definition feat_command (design_path : string) : string :=
  "feat " +:+ dquote +:+ design_path +:+ dquote.

End Common.

(** ** [P8/batchGLM1.py] *)

Module GLM1.
Import PyStr Py Common.
Local Open Scope py_scope.

(** [fill_in_template(template, params)] *)
Definition fill_in_template (rt : runtime) (template : string)
    (params : gmap string value) : result string :=
  Fmt.format rt template params.

Definition input_feat_file (runDir : string) : string :=
  let curRun := last_n 2 runDir in
  path_join (path_join runDir (curRun +:+ "-preprocess.feat")) "denoised_data.nii.gz".

(** The paths of the explanatory-variable files, as [session_GLM] enters
    them into [params] after the volume count. *)
Definition set_EV_paths (workingDir curRun : string) (params : gmap string value)
  : gmap string value :=
  let EVPrefix := "EVfiles/GLM1_run" +:+ curRun +:+ "_" in
  let ev suffix := VStr (path_join workingDir (EVPrefix +:+ suffix)) in
  let params := <["image0WMplusPath" := ev "image0_WMplus.txt"]> params in
  let params := <["image0WMminusPath" := ev "image0_WMminus.txt"]> params in
  let params := <["image1WMplusPath" := ev "image1_WMplus.txt"]> params in
  let params := <["image1WMminusPath" := ev "image1_WMminus.txt"]> params in
  let params := <["image2WMplusPath" := ev "image2_WMplus.txt"]> params in
  let params := <["image2WMminusPath" := ev "image2_WMminus.txt"]> params in
  let params := <["image3WMplusPath" := ev "image3_WMplus.txt"]> params in
  let params := <["image3WMminusPath" := ev "image3_WMminus.txt"]> params in
  let params := <["image4WMplusPath" := ev "image4_WMplus.txt"]> params in
  let params := <["image4WMminusPath" := ev "image4_WMminus.txt"]> params in
  let params := <["image5WMplusPath" := ev "image5_WMplus.txt"]> params in
  let params := <["image5WMminusPath" := ev "image5_WMminus.txt"]> params in
  let params := <["image6WMplusPath" := ev "image6_WMplus.txt"]> params in
  let params := <["image6WMminusPath" := ev "image6_WMminus.txt"]> params in
  let params := <["image7WMplusPath" := ev "image7_WMplus.txt"]> params in
  let params := <["image7WMminusPath" := ev "image7_WMminus.txt"]> params in
  let params := <["image8WMplusPath" := ev "image8_WMplus.txt"]> params in
  let params := <["image8WMminusPath" := ev "image8_WMminus.txt"]> params in
  let params := <["image9WMplusPath" := ev "image9_WMplus.txt"]> params in
  let params := <["image9WMminusPath" := ev "image9_WMminus.txt"]> params in
  let params := <["norespPath" := ev "noresponses.txt"]> params in
  let params := <["testarraypostcuePath" := ev "testarraypostcue.txt"]> params in
  let params := <["testarrayretrocuePath" := ev "testarrayretrocue.txt"]> params in
  let params := <["memoryarrayretrocuePath" := ev "memoryarrayretrocue.txt"]> params in
  params.

(** The dictionary of one run once the volume count is known. *)
Definition run_params (workingDir runDir : string) (numVolumes : Z)
  : gmap string value :=
  let curRun := last_n 2 runDir in
  let params := (∅ : gmap string value) in
  let params := <["input_feat_file" := VStr (input_feat_file runDir)]> params in
  let params := <["numVolumes" := VInt numVolumes]> params in
  set_EV_paths workingDir curRun params.

(** Lines 110 to 177 of the loop body: [# Set parameters]. *)
Definition set_parameters (rt : runtime) (workingDir runDir : string)
  : M (gmap string value) :=
  cresult <- run_command rt ("sh getNumVolume.sh " +:+ input_feat_file runDir) true ;;
  numVolumes <- int_of_stdout rt cresult ;;
  ret (run_params workingDir runDir numVolumes).

Definition blockGLMPath (runDir : string) : string :=
  path_join runDir ("block" +:+ last_n 2 runDir +:+ "_GLM1.fsf").

(** Lines 179 to 183: [# Create block specific fsf file]. *)
Definition create_fsf (rt : runtime) (GLM1Template runDir : string)
    (params : gmap string value) : M unit :=
  blockGLMfsf <- lift (fill_in_template rt GLM1Template params) ;;
  write_file (blockGLMPath runDir) blockGLMfsf.

(** Lines 185 to 191: [# run FEAT]. *)
Definition run_FEAT (rt : runtime) (runDir : string) : M unit :=
  curDir <- getcwd ;;
  chdir runDir ;;;
  results <- run_command rt (feat_command (blockGLMPath runDir)) true ;;
  chdir curDir.

(** The body of the loop of [session_GLM]. *)
Definition session_GLM_run (rt : runtime) (workingDir GLM1Template runDir : string)
  : M unit :=
  params <- set_parameters rt workingDir runDir ;;
  create_fsf rt GLM1Template runDir params ;;;
  run_FEAT rt runDir.

(** [session_GLM(workingDir, inputFolders)] *)
Definition session_GLM (rt : runtime) (workingDir : string) (inputFolders : list string)
  : M unit :=
  GLM1Template <- read_file (path_join workingDir "GLM1_template.fsf") ;;
  for_each inputFolders (session_GLM_run rt workingDir GLM1Template).

(** The loop of [session_GLM_CLI] over the lines of the manifest:
    [inputFolders += [os.path.join(workingDir, "run" + cur_nifii)]]. *)
Definition input_folders (workingDir : string) (lines : list string) : list string :=
  fold_left
    (fun inputFolders inputFilename =>
       let cur_nifii := take 2 inputFilename in
       inputFolders ++ [path_join workingDir ("run" +:+ cur_nifii)])
    lines [].

(** [session_GLM_CLI(args)], given [args.workingDir] *)
Definition session_GLM_CLI (rt : runtime) (args_workingDir : string) : M unit :=
  here <- getcwd ;;
  let workingDir := abspath rt here (expanduser rt args_workingDir) in
  let toProcess := path_join workingDir "to_process_main.txt" in
  inputs <- read_file toProcess ;;
  session_GLM rt workingDir (input_folders workingDir (file_lines inputs)).

End GLM1.

(** ** [P6/batchFEAT_main.py] *)

Module FEAT.
Import PyStr Py Common Re.
Local Open Scope py_scope.

Definition RAWFILEROOT : string := "BIYUJADEHE".
Definition STRUCTURALFILENAME : string := "final_structural".

(** The patterns of the script, by the literal text of their key. *)
Definition quoted (k : string) : pattern := Pattern (k +:+ dquote) dquote.
Definition to_eol (k : string) : pattern := Pattern k EmptyString.

Definition pat_PD_dir : pattern := quoted "PD_dir=".
Definition pat_highres : pattern := quoted "set highres_files(1) ".
Definition pat_feat_files : pattern := quoted "set feat_files(1) ".
Definition pat_outputdir : pattern := quoted "set fmri(outputdir) ".
Definition pat_st_file : pattern := quoted "set fmri(st_file) ".
Definition pat_npts : pattern := to_eol "set fmri(npts) ".
Definition pat_tr : pattern := to_eol "set fmri(tr) ".

(** The replacement texts: a reference to group 1, then the new value (and
    the closing quote of a path). *)
Definition repl_quoted (v : string) : string := "\1" +:+ v +:+ dquote.
Definition repl_number (v : string) : string := "\g<1>" +:+ v.

Definition template_path (workingDir : string) : string :=
  path_join workingDir "design_template_main.fsf".

(** Lines 30 to 50: the directories, and [# Set path to structural ref],
    which writes the template back to the file it was read from.  The
    result is [workingDir]. *)
Definition setup (rt : runtime) : M string :=
  workingDir <- getcwd ;;
  directories <- read_file (path_join workingDir "directories.ini") ;;
  PD_dir <- match re_search_value pat_PD_dir directories with
            | Some v => ret v
            | None => raise AttributeError
            end ;;
  let structuarlDir := abspath rt workingDir PD_dir in
  let template := template_path workingDir in
  fsfTemplate <- read_file template ;;
  fsfTemplate <- lift (re_sub rt pat_highres
                         (repl_quoted (path_join structuarlDir STRUCTURALFILENAME))
                         fsfTemplate) ;;
  write_file template fsfTemplate ;;;
  ret workingDir.

Definition block_dir (workingDir cur_nifii : string) : string :=
  path_join workingDir ("run" +:+ cur_nifii).

Definition block_design_path (workingDir cur_nifii : string) : string :=
  path_join (block_dir workingDir cur_nifii) ("block" +:+ cur_nifii +:+ "_design.fsf").

Definition input_file_root (workingDir cur_nifii : string) : string :=
  path_join workingDir cur_nifii.

(** Lines 60 to 99: [# Create block specific fsf file].  The result is the
    volume count. *)
Definition create_fsf (rt : runtime) (workingDir cur_nifii : string) : M Z :=
  let template := template_path workingDir in
  let block_dir := block_dir workingDir cur_nifii in
  let block_design_path := block_design_path workingDir cur_nifii in
  copy template block_design_path ;;;
  block_design <- read_file block_design_path ;;
  let input_file_root := input_file_root workingDir cur_nifii in
  block_design <- lift (re_sub rt pat_feat_files (repl_quoted input_file_root)
                          block_design) ;;
  block_design <- lift (re_sub rt pat_outputdir
                          (repl_quoted (path_join block_dir (cur_nifii +:+ "-preprocess.feat")))
                          block_design) ;;
  block_design <- lift (re_sub rt pat_st_file
                          (repl_quoted (path_join block_dir "slicetimes.txt"))
                          block_design) ;;
  cresult <- run_command rt ("sh getNumVolume.sh " +:+ input_file_root +:+ ".nii.gz") true ;;
  num_volume <- int_of_stdout rt cresult ;;
  block_design <- lift (re_sub rt pat_npts (repl_number (pretty num_volume))
                          block_design) ;;
  cresult <- run_command rt ("sh getTRDuration.sh " +:+ input_file_root +:+ ".nii.gz") true ;;
  TR_duration <- float_of_stdout rt cresult ;;
  block_design <- lift (re_sub rt pat_tr (repl_number (format_6f rt TR_duration))
                          block_design) ;;
  write_file block_design_path block_design ;;;
  ret num_volume.

(** Lines 101 to 108: [# Create slice timings file]. *)
Definition slicetimings_command (workingDir cur_nifii : string) (num_volume : Z)
  : string :=
  "sh makeSlicetimings.sh"
    +:+ (" ../../RawMRIData/TEMP2A_P6_TC/*" +:+ RAWFILEROOT +:+ ".00" +:+ cur_nifii
           +:+ ".0*.IMA")
    +:+ (" " +:+ block_dir workingDir cur_nifii +:+ "/slicetimes.txt")
    +:+ (" " +:+ pretty num_volume).

(** Lines 110 to 114: [# run FEAT]. *)
Definition run_FEAT (rt : runtime) (workingDir cur_nifii : string) : M unit :=
  chdir (block_dir workingDir cur_nifii) ;;;
  results <- run_command rt (feat_command (block_design_path workingDir cur_nifii)) false ;;
  chdir workingDir.

(** The body of the loop over the lines of [to_process_main.txt]. *)
Definition process_run (rt : runtime) (workingDir inputFilename : string) : M unit :=
  let cur_nifii := take 2 inputFilename in
  makedirs (block_dir workingDir cur_nifii) ;;;
  num_volume <- create_fsf rt workingDir cur_nifii ;;
  results <- run_command rt (slicetimings_command workingDir cur_nifii num_volume) false ;;
  run_FEAT rt workingDir cur_nifii.

(** The script, from line 30 on. *)
Definition main (rt : runtime) : M unit :=
  workingDir <- setup rt ;;
  let toProcess := path_join workingDir "to_process_main.txt" in
  inputs <- read_file toProcess ;;
  for_each (file_lines inputs) (process_run rt workingDir).

End FEAT.

(** ** A concrete runtime and a small session, for running the drivers *)

Module Demo.
Import PyStr Py.

(** Words separated by blanks, a double-quoted stretch kept in one word:
    what [shlex.split] does on the command lines the scripts build. *)
Fixpoint split_words (quoted : bool) (cur : string) (s : string) : list string :=
  match s with
  | EmptyString =>
      match cur with
      | EmptyString => []
      | _ => [cur]
      end
  | String c r =>
      if Ascii.eqb c dquote_char then split_words (negb quoted) cur r
      else if Ascii.eqb c " " && negb quoted then
        match cur with
        | EmptyString => split_words false EmptyString r
        | _ => cur :: split_words false EmptyString r
        end
      else split_words quoted (cur +:+ String c EmptyString) r
  end.

Fixpoint digits_value (acc : Z) (s : string) : option Z :=
  match s with
  | EmptyString => Some acc
  | String c r =>
      if Fmt.is_digit c then digits_value (10 * acc + Z.of_nat (nat_of_ascii c - 48))%Z r
      else None
  end.

Definition parse_int (s : string) : result Z :=
  match fst (break_line s) with
  | EmptyString => Raise (ValueError "invalid literal for int()")
  | d => match digits_value 0 d with
         | Some n => Ok n
         | None => Raise (ValueError "invalid literal for int()")
         end
  end.

(** A reference to group 1 followed by plain text. *)
Definition compile_simple (repl : string) : result (list repl_item) :=
  match strip_prefix "\g<1>" repl with
  | Some rest => Ok [RGroup 1; RLit rest]
  | None =>
      match strip_prefix "\1" repl with
      | Some rest => Ok [RGroup 1; RLit rest]
      | None => Ok [RLit repl]
      end
  end.

(** The helper scripts print a volume count and a repetition time. *)
Definition helper_output (sargs : list string) : string :=
  match sargs with
  | _ :: "getNumVolume.sh" :: _ => "120"
  | _ :: "getTRDuration.sh" :: _ => "2.000000"
  | _ => EmptyString
  end.

(** A runtime whose child processes exit with the status [status] gives
    them and leave the files alone. *)
Definition rt_with (status : list string -> Z) : runtime :=
  {| shlex_split := fun s => Ok (split_words false EmptyString s);
     spawn := fun sargs _ w => (Ok (status sargs, helper_output sargs), fs w);
     abspath := fun here p => if String.eqb p "." then here else path_join here p;
     expanduser := fun p => p;
     compile_template := compile_simple;
     py_int := parse_int;
     pyfloat := string;
     py_float := fun s => Ok (fst (break_line s));
     format_6f := fun s => s;
     format_extended := fun _ _ _ _ _ => Raise (ValueError "Invalid format specifier");
     repr_args := fun l => "[" +:+ String.concat ", " l +:+ "]";
     repr_bytes := fun s => s |}.

(** Every process succeeds. *)
Definition rt_ok : runtime := rt_with (fun _ => 0%Z).

(** The named program fails with status 1. *)
Definition fails (prog : string) (sargs : list string) : Z :=
  if bool_decide (prog ∈ sargs) then 1%Z else 0%Z.

Definition design_template : string :=
  "set fmri(tr) 1.0" +:+ String nl
    ("set fmri(npts) 1" +:+ String nl
    ("set feat_files(1) " +:+ dquote +:+ "old" +:+ dquote +:+ String nl
    ("set highres_files(1) " +:+ dquote +:+ "old" +:+ dquote +:+ String nl EmptyString))).

Definition GLM1_template : string :=
  "set fmri(npts) {numVolumes}" +:+ String nl
    ("set feat_files(1) " +:+ dquote +:+ "{input_feat_file}" +:+ dquote +:+ String nl EmptyString).

(** A template that asks for the repetition time, which [session_GLM] does
    not enter into [params]. *)
Definition GLM1_template_with_TR : string :=
  "set fmri(tr) {TR_duration}" +:+ String nl GLM1_template.

Definition manifest : string :=
  "05_run.nii" +:+ String nl ("12_run.nii" +:+ String nl EmptyString).

(** A manifest with an empty line between its two runs. *)
Definition manifest_with_blank : string :=
  "05_run.nii" +:+ String nl (String nl ("12_run.nii" +:+ String nl EmptyString)).

Definition session_files : gmap string string :=
  <["/work/directories.ini" := "PD_dir=" +:+ dquote +:+ "/data/PD" +:+ dquote +:+ String nl EmptyString]>
  (<["/work/design_template_main.fsf" := design_template]>
  (<["/work/GLM1_template.fsf" := GLM1_template]>
  (<["/work/to_process_main.txt" := manifest]> ∅))).

Definition session : world :=
  {| cwd := "/work";
     fs := {| files := session_files;
              dirs := {["/"; "/work"; "/work/run05"; "/work/run12"]} |};
     trace := [] |}.

End Demo.

(** ** Notions used to state the properties *)

Module Props.
Import PyStr Py Re Common.

(** [k] occurs in [s]. *)
Definition contains (k s : string) : Prop :=
  exists a b, s = a +:+ k +:+ b.

(** The pattern matches somewhere in [s]: the key, then text without a
    line feed, then the tail. *)
Definition occurs_in (p : pattern) (s : string) : Prop :=
  exists a m b, s = a +:+ key p +:+ m +:+ tail p +:+ b /\ single_line m = true.

(** The key occurs in [pre +:+ key p] at its end only: going through the
    text, the key is first met right after [pre]. *)
Definition first_at (p : pattern) (pre : string) : Prop :=
  forall a b, pre +:+ key p = a +:+ key p +:+ b -> b = EmptyString.

(** The two notions above as checks that compute. *)
Fixpoint contains_b (k s : string) : bool :=
  match strip_prefix k s with
  | Some _ => true
  | None =>
      match s with
      | EmptyString => false
      | String _ r => contains_b k r
      end
  end.

Fixpoint starts_within (k : string) (n : nat) (s : string) : bool :=
  match n with
  | O => false
  | S n' =>
      match strip_prefix k s with
      | Some _ => true
      | None =>
          match s with
          | EmptyString => false
          | String _ r => starts_within k n' r
          end
      end
  end.

(** [post] is empty or begins a new line. *)
Definition at_line_end (post : string) : Prop :=
  post = EmptyString \/ exists r, post = String nl r.

(** A line of a manifest that holds nothing but its terminator. *)
Definition blank (line : string) : bool := String.eqb line (String nl EmptyString).

Definition non_blank_lines (content : string) : list string :=
  List.filter (fun line => negb (blank line)) (file_lines content).

Fixpoint concat_lines (ls : list string) : string :=
  match ls with
  | [] => EmptyString
  | l :: rest => l +:+ concat_lines rest
  end.

(** A line of a file: text without a line feed, followed by the line feed
    or, on a last line that is not terminated, by nothing. *)
Definition line_of (body line : string) : Prop :=
  single_line body = true
  /\ (line = body +:+ String nl EmptyString \/ (line = body /\ body <> EmptyString)).

(** The argument vector a command line is split into. *)
Definition argv (rt : runtime) (scommand : string) : list string :=
  match shlex_split rt scommand with
  | Ok sargs => sargs
  | Raise _ => []
  end.


(** Running [m] from [w] ends, normally or with an exception, in a result
    and a world that satisfy [Q]. *)
Definition wp {A} (m : M A) (w : world) (Q : result A -> world -> Prop) : Prop :=
  Q (fst (m w)) (snd (m w)).

(** The events of a run that stopped at some step: the first events of a
    complete run. *)
Definition began (evs full : list event) : Prop := evs `prefix_of` full.

Definition no_write (evs : list event) : Prop :=
  forall path content, EvWrite path content ∉ evs.

Definition raised {A} (r : result A) : Prop := exists e, r = Raise e.

(** The events of one run of [session_GLM] that goes through: the helper
    that counts the volumes, the design file, the tool. *)
Definition GLM1_run_events (rt : runtime) (here runDir doc : string) : list event :=
  [EvExec (argv rt ("sh getNumVolume.sh " +:+ GLM1.input_feat_file runDir));
   EvWrite (path_join here (GLM1.blockGLMPath runDir)) doc;
   EvExec (argv rt (feat_command (GLM1.blockGLMPath runDir)))].

Definition volume_command (workingDir cur_nifii : string) : string :=
  "sh getNumVolume.sh " +:+ FEAT.input_file_root workingDir cur_nifii +:+ ".nii.gz".

Definition TR_command (workingDir cur_nifii : string) : string :=
  "sh getTRDuration.sh " +:+ FEAT.input_file_root workingDir cur_nifii +:+ ".nii.gz".

(** The events of [create_fsf] of the FEAT driver up to its two helpers:
    the copy of the template to [copied], then the helpers. *)
Definition FEAT_derive_events (rt : runtime) (workingDir cur_nifii copied t : string)
  : list event :=
  [EvWrite copied t;
   EvExec (argv rt (volume_command workingDir cur_nifii));
   EvExec (argv rt (TR_command workingDir cur_nifii))].

(** The events of one run of the FEAT driver that goes through. *)
Definition FEAT_run_events (rt : runtime) (workingDir cur_nifii here copied t doc : string)
    (num_volume : Z) : list event :=
  FEAT_derive_events rt workingDir cur_nifii copied t ++
  [EvWrite (path_join here (FEAT.block_design_path workingDir cur_nifii)) doc;
   EvExec (argv rt (FEAT.slicetimings_command workingDir cur_nifii num_volume));
   EvExec (argv rt (feat_command (FEAT.block_design_path workingDir cur_nifii)))].

(** *** Two claims read to the letter

    The working directory is restored after the tool, whether it succeeded
    or failed. *)
Definition restores_cwd_always : Prop :=
  forall rt runDir w,
    is_abs (cwd w) = true -> cwd (snd (GLM1.run_FEAT rt runDir w)) = cwd w.

(** One run per line of the manifest that is not blank. *)
Definition one_run_per_non_blank_line : Prop :=
  forall workingDir content,
    List.length (GLM1.input_folders workingDir (file_lines content))
    = List.length (non_blank_lines content).

End Props.

(** ** Runs and batches *)

Module Runs.
Import PyStr Py Re Common Props.

(** Started in [w], the program of [scommand] runs to its end and exits
    with a status other than 0. *)
Definition fails_in (rt : runtime) (scommand : string) (capture : bool) (w : world)
  : Prop :=
  exists sargs rc out fs',
    shlex_split rt scommand = Ok sargs
    /\ spawn rt sargs capture w = (Ok (rc, out), fs') /\ rc <> 0%Z.

(** The world in which a run of the FEAT driver starts its first helper:
    line 58 has made the folder of the run and line 62 has copied the
    template into it; the lines between the copy and the helper read the
    copy and rewrite it in memory. *)
Definition FEAT_helper_world (workingDir cur_nifii : string) (w : world) : world :=
  snd (copy (FEAT.template_path workingDir) (FEAT.block_design_path workingDir cur_nifii)
         (snd (makedirs (FEAT.block_dir workingDir cur_nifii) w))).

(** The world a process started in [w] with the arguments [sargs] leaves
    when it has run to its end, the files being then [fs1]. *)
Definition after_process (w : world) (sargs : list string) (fs1 : fsys) : world :=
  World (cwd w) fs1 (trace w ++ [EvExec sargs]).

(** One of the two helpers of a run exits with a status other than 0 in
    that run: the one that counts the volumes, started in [w]; or the one
    that gives the repetition time, started after the first one has exited
    with status 0. *)
Definition helper_fails_from (rt : runtime) (workingDir cur_nifii : string) (w : world)
  : Prop :=
  fails_in rt (volume_command workingDir cur_nifii) true w
  \/ exists sargs out fs1,
       shlex_split rt (volume_command workingDir cur_nifii) = Ok sargs
       /\ spawn rt sargs true w = (Ok (0%Z, out), fs1)
       /\ fails_in rt (TR_command workingDir cur_nifii) true (after_process w sargs fs1).

Definition FEAT_helper_fails (rt : runtime) (workingDir cur_nifii : string) (w : world)
  : Prop :=
  helper_fails_from rt workingDir cur_nifii (FEAT_helper_world workingDir cur_nifii w).

(** Where [shutil.copy] puts the template of a run started in the
    directory [here]: at the path of the design file, or inside it when
    that path is a directory. *)
Definition FEAT_copy_targets (here workingDir cur_nifii : string) : list string :=
  [path_join here (FEAT.block_design_path workingDir cur_nifii);
   path_join here (path_join (FEAT.block_design_path workingDir cur_nifii)
                     (basename (FEAT.template_path workingDir)))].

(** The events of a run of [session_GLM] that went through: those of
    [GLM1_run_events], the design file holding the template filled with the
    parameters of the run for the volume count [n] of the helper. *)
Definition GLM1_complete_run (rt : runtime) (workingDir T here runDir : string)
    (seg : list event) : Prop :=
  exists n doc,
    GLM1.fill_in_template rt T (GLM1.run_params workingDir runDir n) = Ok doc
    /\ seg = GLM1_run_events rt here runDir doc.

(** The events of a run of [session_GLM] that may have stopped. *)
Definition GLM1_begun_run (rt : runtime) (here runDir : string) (seg : list event)
  : Prop :=
  exists doc, began seg (GLM1_run_events rt here runDir doc).

(** The events of a run of the FEAT driver that went through: those of
    [FEAT_run_events], the design written after the helpers being the
    result of the rewritings for the volume count [n] and for a repetition
    time. *)
Definition FEAT_complete_run (rt : runtime) (workingDir here line : string)
    (seg : list event) : Prop :=
  exists copied t design design' doc n TR_duration,
    copied ∈ FEAT_copy_targets here workingDir (take 2 line)
    /\ re_sub rt FEAT.pat_npts (FEAT.repl_number (pretty n)) design = Ok design'
    /\ re_sub rt FEAT.pat_tr (FEAT.repl_number (format_6f rt TR_duration)) design' = Ok doc
    /\ seg = FEAT_run_events rt workingDir (take 2 line) here copied t doc n.

(** The events of a run of the FEAT driver that may have stopped. *)
Definition FEAT_begun_run (rt : runtime) (workingDir here line : string)
    (seg : list event) : Prop :=
  exists copied t doc n,
    copied ∈ FEAT_copy_targets here workingDir (take 2 line)
    /\ began seg (FEAT_run_events rt workingDir (take 2 line) here copied t doc n).

(** The events of a loop over [xs].  When the loop has returned normally
    ([ok]), they are those of a complete run for each element, in the order
    of the list.  When it has stopped with an exception, they are those of
    complete runs for the elements before some element [x], followed by the
    events of a run for [x] that has begun; the elements behind [x] have
    given no event. *)
Definition runs_in_order {A} (complete begun : A -> list event -> Prop)
    (xs : list A) (ok : bool) (evs : list event) : Prop :=
  if ok then
    exists segs, evs = concat segs /\ Forall2 complete xs segs
  else
    exists done x later segs seg,
      xs = done ++ x :: later
      /\ evs = concat segs ++ seg
      /\ Forall2 complete done segs
      /\ begun x seg.

(** *** More claims read to the letter

    When a helper of a run exits with a status other than 0, the run has
    written no design file. *)
Definition failed_helper_writes_nothing : Prop :=
  forall rt workingDir inputFilename w evs content,
    FEAT_helper_fails rt workingDir (take 2 inputFilename) w ->
    trace (snd (FEAT.process_run rt workingDir inputFilename w)) = trace w ++ evs ->
    EvWrite (resolve w (FEAT.block_design_path workingDir (take 2 inputFilename))) content
    ∉ evs.

(** [run_command] raises only after a process that has exited with a
    status other than 0. *)
Definition raises_on_nonzero_status_only : Prop :=
  forall rt scommand capture w e,
    fst (run_command rt scommand capture w) = Raise e ->
    exists sargs rc out fs',
      shlex_split rt scommand = Ok sargs
      /\ spawn rt sargs capture w = (Ok (rc, out), fs') /\ rc <> 0%Z.

(** A run derives its parameters before it writes its design file: a
    helper has been started before anything is written at the path of the
    design file. *)
Definition derives_before_writing : Prop :=
  forall rt workingDir inputFilename w before content later,
    trace (snd (FEAT.process_run rt workingDir inputFilename w))
    = trace w
      ++ before
      ++ EvWrite (resolve w (FEAT.block_design_path workingDir (take 2 inputFilename)))
           content
         :: later ->
    exists sargs, EvExec sargs ∈ before.

(** A rule whose pattern matches nowhere gives the text back and raises
    nothing. *)
Definition unmatched_rule_is_silent : Prop :=
  forall rt p repl text,
    ~ occurs_in p text -> re_sub rt p repl text = Ok text.

(** In a text that holds the target line (the key, a value and the tail,
    at the end of a line) the rule changes the value and nothing else. *)
Definition rewrites_target_line_only : Prop :=
  forall rt p pre old new post repl,
    compile_template rt repl = Ok [RGroup 1; RLit (new +:+ tail p)] ->
    first_at p pre -> single_line old = true -> at_line_end post ->
    re_sub rt p repl (pre +:+ key p +:+ old +:+ tail p +:+ post)
    = Ok (pre +:+ key p +:+ new +:+ tail p +:+ post).

End Runs.

(** ** Replacement texts, as [re] reads them

    [re.sub] hands a replacement text that holds a backslash to the
    template parser of [re] before it looks for a match.  The parser is
    that of the library, not of the scripts; it is written out here for a
    pattern with one group, to run the rewriting rules on paths that hold
    a backslash.  A backslash is followed by
    - [g<n>], a reference to group [n] by its decimal number (a name that
      is not a decimal number is looked up among the named groups, of
      which there are none);
    - [0] and up to two octal digits, or three octal digits: the character
      with that code;
    - one or two decimal digits: a reference to the group of that number;
    - one of [a b f n r t v] or a backslash: the control character, or the
      backslash;
    - another ASCII letter: an error;
    - any other character: the backslash and the character stay. *)

Module ReTemplate.
Import PyStr Py.

Inductive tstate : Type :=
| TLit
| TEsc
| TG
| TName (name : string)
| TOct (more : nat) (code : nat)
| TRef (c : ascii)
| TRef2 (c d : ascii).

Definition backslash : ascii := "092"%char.

Definition is_octdigit (c : ascii) : bool :=
  (48 <=? nat_of_ascii c) && (nat_of_ascii c <=? 55).

Definition is_ascii_letter (c : ascii) : bool :=
  ((97 <=? nat_of_ascii c) && (nat_of_ascii c <=? 122))
  || ((65 <=? nat_of_ascii c) && (nat_of_ascii c <=? 90)).

Definition digit (c : ascii) : nat := nat_of_ascii c - 48.

(** The table [ESCAPES] of the parser. *)
Definition escape (c : ascii) : option ascii :=
  if Ascii.eqb c "a" then Some "007"%char
  else if Ascii.eqb c "b" then Some "008"%char
  else if Ascii.eqb c "f" then Some "012"%char
  else if Ascii.eqb c "n" then Some "010"%char
  else if Ascii.eqb c "r" then Some "013"%char
  else if Ascii.eqb c "t" then Some "009"%char
  else if Ascii.eqb c "v" then Some "011"%char
  else if Ascii.eqb c backslash then Some backslash
  else None.

(** A literal character in front of what follows. *)
Definition lit (c : ascii) (r : result (list repl_item)) : result (list repl_item) :=
  match r with
  | Ok (RLit s :: items) => Ok (RLit (String c s) :: items)
  | Ok items => Ok (RLit (String c EmptyString) :: items)
  | Raise e => Raise e
  end.

(** A reference to group [n] in front of what follows; the pattern has
    one group. *)
Definition group (n : nat) (r : result (list repl_item)) : result (list repl_item) :=
  if n <=? 1 then
    match r with
    | Ok items => Ok (RGroup n :: items)
    | Raise e => Raise e
    end
  else Raise (ReError "invalid group reference").

Fixpoint number (acc : nat) (s : string) : option nat :=
  match s with
  | EmptyString => Some acc
  | String c r => if Fmt.is_digit c then number (10 * acc + digit c) r else None
  end.

Definition named (name : string) (r : result (list repl_item)) : result (list repl_item) :=
  match name with
  | EmptyString => Raise (ReError "missing group name")
  | _ =>
      match number 0 name with
      | Some n => group n r
      | None => Raise IndexError
      end
  end.

Definition at_end (st : tstate) : result (list repl_item) :=
  match st with
  | TLit => Ok []
  | TEsc => Raise (ReError "bad escape (end of pattern)")
  | TG => Raise (ReError "missing <")
  | TName _ => Raise (ReError "missing >, unterminated name")
  | TOct _ code => lit (ascii_of_nat code) (Ok [])
  | TRef c => group (digit c) (Ok [])
  | TRef2 _ _ => Raise (ReError "invalid group reference")
  end.

Fixpoint parse (st : tstate) (s : string) : result (list repl_item) :=
  match s with
  | EmptyString => at_end st
  | String x r =>
      let plain := if Ascii.eqb x backslash then parse TEsc r else lit x (parse TLit r) in
      match st with
      | TLit => plain
      | TEsc =>
          if Ascii.eqb x "g" then parse TG r
          else if Ascii.eqb x "0" then parse (TOct 2 0) r
          else if Fmt.is_digit x then parse (TRef x) r
          else match escape x with
               | Some c => lit c (parse TLit r)
               | None =>
                   if is_ascii_letter x
                   then Raise (ReError ("bad escape " +:+ String backslash (String x EmptyString)))
                   else lit backslash (lit x (parse TLit r))
               end
      | TG =>
          if Ascii.eqb x "<" then parse (TName EmptyString) r
          else Raise (ReError "missing <")
      | TName name =>
          if Ascii.eqb x ">" then named name (parse TLit r)
          else parse (TName (name +:+ String x EmptyString)) r
      | TOct (S more) code =>
          if is_octdigit x then parse (TOct more (8 * code + digit x)) r
          else lit (ascii_of_nat code) plain
      | TOct O code => lit (ascii_of_nat code) plain
      | TRef c =>
          if Fmt.is_digit x then parse (TRef2 c x) r
          else group (digit c) plain
      | TRef2 c d =>
          if is_octdigit c && is_octdigit d && is_octdigit x then
            let code := 64 * digit c + 8 * digit d + digit x in
            if code <=? 255 then lit (ascii_of_nat code) (parse TLit r)
            else Raise (ReError "octal escape value outside of range 0-0o377")
          else Raise (ReError "invalid group reference")
      end
  end.

(** [re._parser.parse_template(repl, pattern)] *)
Definition parse_template (repl : string) : result (list repl_item) := parse TLit repl.

End ReTemplate.

(** ** More runtimes for running the scripts *)

Module Demo3.
Import PyStr Py Demo.

(** The runtime of the session, with the replacement texts parsed as [re]
    parses them. *)
Definition rt_re : runtime :=
  {| shlex_split := shlex_split rt_ok;
     spawn := spawn rt_ok;
     abspath := abspath rt_ok;
     expanduser := expanduser rt_ok;
     compile_template := ReTemplate.parse_template;
     py_int := py_int rt_ok;
     pyfloat := string;
     py_float := fun s => Ok (fst (break_line s));
     format_6f := fun s => s;
     format_extended := format_extended rt_ok;
     repr_args := repr_args rt_ok;
     repr_bytes := repr_bytes rt_ok |}.

(** A machine on which the program [prog] is not installed:
    [subprocess.run] raises [FileNotFoundError] and no process runs. *)
Definition rt_without (prog : string) : runtime :=
  {| shlex_split := shlex_split rt_ok;
     spawn := fun sargs capture w =>
                if bool_decide (head sargs = Some prog)
                then (Raise (OSError "FileNotFoundError" prog), fs w)
                else spawn rt_ok sargs capture w;
     abspath := abspath rt_ok;
     expanduser := expanduser rt_ok;
     compile_template := compile_template rt_ok;
     py_int := py_int rt_ok;
     pyfloat := string;
     py_float := fun s => Ok (fst (break_line s));
     format_6f := fun s => s;
     format_extended := format_extended rt_ok;
     repr_args := repr_args rt_ok;
     repr_bytes := repr_bytes rt_ok |}.

(** The output directory of run 05 of a session kept in a directory whose
    name holds a backslash. *)
Definition outputdir_with_backslash : string := "/work/P6\main/run05/05-preprocess.feat".

End Demo3.

(** ** Further notions, for the properties beyond the claims *)

Module MoreProps.
Import PyStr Py Re Fmt Common Props.

(** No brace occurs in [s]. *)
Definition is_brace (c : ascii) : bool := Ascii.eqb c "{" || Ascii.eqb c "}".

Fixpoint brace_free (s : string) : bool :=
  match s with
  | EmptyString => true
  | String c r => negb (is_brace c) && brace_free r
  end.

(** [s] with each brace doubled. *)
Fixpoint escape_braces (s : string) : string :=
  match s with
  | EmptyString => EmptyString
  | String c r =>
      if is_brace c then String c (String c (escape_braces r))
      else String c (escape_braces r)
  end.

(** The characters of a literal text as pieces. *)
Fixpoint chars (s : string) : list piece :=
  match s with
  | EmptyString => []
  | String c r => PChar c :: chars r
  end.

(** A character that neither ends a field name nor begins an attribute,
    an index, a conversion or a format specification. *)
Definition name_char (c : ascii) : bool :=
  negb (is_brace c || Ascii.eqb c "[" || Ascii.eqb c "." || Ascii.eqb c ":"
        || Ascii.eqb c "!").

Fixpoint plain_name (s : string) : bool :=
  match s with
  | EmptyString => true
  | String c r => name_char c && plain_name r
  end.

(** A name that [str.format] looks up among the keyword arguments. *)
Definition keyword_name (s : string) : bool := plain_name s && negb (positional s).

(** A template without a malformed place whose fields are all of the form
    of a keyword name between braces. *)
Definition plain_piece (pc : piece) : bool :=
  match pc with
  | PChar _ => true
  | PField name None EmptyString => keyword_name name
  | PField _ _ _ => false
  end.

Definition plain_template (template : string) : bool :=
  match scan SText template with
  | (ps, None) => forallb plain_piece ps
  | (_, Some _) => false
  end.

(** The keys that [session_GLM] enters into [params], last one first. *)
Definition GLM1_keys : list string :=
  ["memoryarrayretrocuePath"; "testarrayretrocuePath"; "testarraypostcuePath";
   "norespPath";
   "image9WMminusPath"; "image9WMplusPath"; "image8WMminusPath"; "image8WMplusPath";
   "image7WMminusPath"; "image7WMplusPath"; "image6WMminusPath"; "image6WMplusPath";
   "image5WMminusPath"; "image5WMplusPath"; "image4WMminusPath"; "image4WMplusPath";
   "image3WMminusPath"; "image3WMplusPath"; "image2WMminusPath"; "image2WMplusPath";
   "image1WMminusPath"; "image1WMplusPath"; "image0WMminusPath"; "image0WMplusPath";
   "numVolumes"; "input_feat_file"].

(** The child processes leave the files and directories as they are. *)
Definition quiet (rt : runtime) : Prop :=
  forall sargs capture w, snd (spawn rt sargs capture w) = fs w.

(** [t] occurs in [t +:+ s] at its beginning only. *)
Definition only_at_start (t s : string) : Prop :=
  forall a b, t +:+ s = a +:+ t +:+ b -> a = EmptyString.

(** The number of line feeds of a text. *)
Fixpoint count_nl (s : string) : nat :=
  match s with
  | EmptyString => 0
  | String c r => (if Ascii.eqb c nl then 1 else 0) + count_nl r
  end.

(** 1 for a text whose last line has no line feed, 0 otherwise. *)
Definition unterminated (s : string) : nat :=
  match s with
  | EmptyString => 0
  | _ => if ends_with_char nl s then 0 else 1
  end.

(** No backslash occurs in [s]. *)
Fixpoint no_backslash (s : string) : bool :=
  match s with
  | EmptyString => true
  | String c r => negb (Ascii.eqb c ReTemplate.backslash) && no_backslash r
  end.

Definition begins_with_digit (s : string) : bool :=
  match s with
  | EmptyString => false
  | String c _ => Fmt.is_digit c
  end.

End MoreProps.

(** ** More texts for running the scripts *)

Module Demo2.
Import PyStr Py Demo.

(** A design with two lines for the volume count. *)
Definition two_npts : string :=
  "set fmri(npts) 1" +:+ String nl ("set fmri(npts) 2" +:+ String nl EmptyString).

(** A template that writes a literal pair of braces. *)
Definition braces_template : string := "set fmri(x) {{{numVolumes}}}".

(** A file of directories without the line the FEAT driver looks for. *)
Definition session_without_PD_dir : world :=
  {| cwd := "/work";
     fs := {| files := <["/work/directories.ini" := "RAW_dir=/data/raw"]> session_files;
              dirs := {["/"; "/work"]} |};
     trace := [] |}.

(** The session before any run folder has been made. *)
Definition session_without_folders : world :=
  {| cwd := "/work";
     fs := {| files := session_files; dirs := {["/"; "/work"]} |};
     trace := [] |}.

(** The session with an empty manifest. *)
Definition session_with_empty_manifest : world :=
  {| cwd := "/work";
     fs := {| files := <["/work/to_process_main.txt" := EmptyString]> session_files;
              dirs := {["/"; "/work"]} |};
     trace := [] |}.

End Demo2.

(* ===================================================================== *)
(** * Part II: properties                                                 *)
(* ===================================================================== *)

(** ** Strings *)

Module StrFacts.
Import PyStr.

Lemma sapp_assoc (a b c : string) : (a +:+ b) +:+ c = a +:+ b +:+ c.
Proof. induction a as [|x a IH]; simpl; [reflexivity | now rewrite IH]. Qed.

Lemma sapp_empty_r (a : string) : a +:+ EmptyString = a.
Proof. induction a as [|x a IH]; simpl; [reflexivity | now rewrite IH]. Qed.

Lemma slength_app (a b : string) :
  String.length (a +:+ b) = String.length a + String.length b.
Proof. induction a as [|x a IH]; simpl; [reflexivity | now rewrite IH]. Qed.

Lemma length_zero (a : string) : String.length a = 0 -> a = EmptyString.
Proof. destruct a; simpl; [reflexivity | discriminate]. Qed.

Lemma strip_prefix_app (k r : string) : strip_prefix k (k +:+ r) = Some r.
Proof.
  induction k as [|x k IH]; simpl; [reflexivity |].
  now rewrite Ascii.eqb_refl.
Qed.

Lemma strip_prefix_Some (k s r : string) :
  strip_prefix k s = Some r -> s = k +:+ r.
Proof.
  revert s; induction k as [|x k IH]; intros s H; simpl in *.
  - now injection H.
  - destruct s as [|y s]; [discriminate |].
    destruct (Ascii.eqb_spec x y) as [->|]; [| discriminate].
    now rewrite (IH _ H).
Qed.

Lemma strip_prefix_None (k s : string) :
  strip_prefix k s = None -> forall r, s <> k +:+ r.
Proof.
  intros H r ->. now rewrite strip_prefix_app in H.
Qed.

(** A prefix of a concatenation that is no longer than the first part is a
    prefix of the first part. *)
Lemma prefix_of_app (k x y r : string) :
  x +:+ y = k +:+ r -> String.length k <= String.length x ->
  exists b, x = k +:+ b.
Proof.
  revert x; induction k as [|c k IH]; intros x H Hlen; simpl in *.
  - now exists x.
  - destruct x as [|d x]; simpl in *; [lia |].
    injection H as -> H.
    destruct (IH x H ltac:(lia)) as [b ->]. now exists b.
Qed.

Lemma single_line_app (a b : string) :
  single_line (a +:+ b) = single_line a && single_line b.
Proof.
  induction a as [|x a IH]; simpl; [reflexivity |].
  rewrite IH. now rewrite andb_assoc.
Qed.

Lemma break_line_spec (s : string) :
  s = fst (break_line s) +:+ snd (break_line s)
  /\ single_line (fst (break_line s)) = true
  /\ Props.at_line_end (snd (break_line s)).
Proof.
  induction s as [|c s (IH1 & IH2 & IH3)]; simpl.
  - repeat split; now left.
  - destruct (Ascii.eqb_spec c nl) as [->|Hc]; simpl.
    + repeat split. right. now exists s.
    + destruct (break_line s) as [l rest]; simpl in *.
      repeat split; [now rewrite <- IH1 | | exact IH3].
      rewrite IH2. now destruct (Ascii.eqb_spec c nl).
Qed.

Lemma break_line_app (l post : string) :
  single_line l = true -> Props.at_line_end post ->
  break_line (l +:+ post) = (l, post).
Proof.
  intros Hl Hpost. induction l as [|c l IH]; simpl in *.
  - destruct Hpost as [->|[r ->]]; reflexivity.
  - apply andb_prop in Hl as [Hc Hl].
    destruct (Ascii.eqb c nl); [discriminate |].
    now rewrite (IH Hl).
Qed.

Lemma rsplit_Some (t s a b : string) :
  rsplit t s = Some (a, b) -> s = a +:+ t +:+ b.
Proof.
  revert a b; induction s as [|c s IH]; intros a b H; simpl in H.
  - destruct t; [| discriminate]. now injection H as <- <-.
  - destruct (rsplit t s) as [[a' b']|].
    + injection H as <- <-. simpl. now rewrite (IH a' b').
    + destruct (strip_prefix t (String c s)) as [b'|] eqn:Hp; [| discriminate].
      injection H as <- <-. simpl. now apply strip_prefix_Some.
Qed.

Lemma rsplit_short (t s : string) :
  String.length s < String.length t -> rsplit t s = None.
Proof.
  intros Hlen. destruct (rsplit t s) as [[a b]|] eqn:H; [| reflexivity].
  apply rsplit_Some in H. subst s.
  rewrite !slength_app in Hlen. lia.
Qed.

Lemma rsplit_self (t : string) : rsplit t t = Some (EmptyString, EmptyString).
Proof.
  destruct t as [|c t]; [reflexivity |].
  cbn [rsplit]. rewrite rsplit_short by (simpl; lia).
  pose proof (strip_prefix_app (String c t) EmptyString) as H.
  rewrite sapp_empty_r in H. now rewrite H.
Qed.

(** The last occurrence of [t] in a text that ends with [t] is that end. *)
Lemma rsplit_app_end (a t : string) :
  rsplit t (a +:+ t) = Some (a, EmptyString).
Proof.
  induction a as [|c a IH]; simpl.
  - apply rsplit_self.
  - now rewrite IH.
Qed.

Lemma take_length (n : nat) (s : string) :
  n <= String.length s -> String.length (take n s) = n.
Proof.
  revert s; induction n as [|n IH]; intros s H; simpl.
  - reflexivity.
  - destruct s as [|c s]; simpl in *; [lia |]. rewrite IH; lia.
Qed.

Lemma take_app (n : nat) (a b : string) :
  n <= String.length a -> take n (a +:+ b) = take n a.
Proof.
  revert a; induction n as [|n IH]; intros a H; simpl.
  - reflexivity.
  - destruct a as [|c a]; simpl in *; [lia |]. rewrite IH; [reflexivity | lia].
Qed.

Lemma single_line_take (n : nat) (s : string) :
  single_line s = true -> single_line (take n s) = true.
Proof.
  revert s; induction n as [|n IH]; intros s H; simpl; [reflexivity |].
  destruct s as [|c s]; simpl in *; [reflexivity |].
  apply andb_prop in H as [-> H]. simpl. now apply IH.
Qed.

End StrFacts.

(** ** Pattern rewriting *)

Module ReFacts.
Import PyStr Py Re Props StrFacts.

Lemma match_here_Some (p : pattern) (s v : string) (n : nat) :
  match_here p s = Some (v, n) ->
  single_line v = true
  /\ n = String.length (key p) + String.length v + String.length (tail p)
  /\ exists b, s = key p +:+ v +:+ tail p +:+ b.
Proof.
  unfold match_here.
  destruct (strip_prefix (key p) s) as [r|] eqn:Hk; [| discriminate].
  apply strip_prefix_Some in Hk.
  destruct (break_line_spec r) as (Hr & Hl & _).
  destruct (rsplit (tail p) (fst (break_line r))) as [[v' a]|] eqn:Hs; [| discriminate].
  intros [= <- <-]. apply rsplit_Some in Hs.
  rewrite Hs, single_line_app in Hl. apply andb_prop in Hl as [Hv _].
  repeat split; [exact Hv |].
  exists (a +:+ snd (break_line r)).
  rewrite Hk. f_equal. rewrite Hr at 1. rewrite Hs.
  now rewrite !sapp_assoc.
Qed.

Lemma match_here_occurs (p : pattern) (s : string) (x : string * nat) :
  match_here p s = Some x -> occurs_in p s.
Proof.
  destruct x as [v n]. intros H.
  destruct (match_here_Some _ _ _ _ H) as (Hv & _ & b & ->).
  now exists EmptyString, v, b.
Qed.

Lemma occurs_in_cons (p : pattern) (c : ascii) (s : string) :
  occurs_in p s -> occurs_in p (String c s).
Proof.
  intros (a & m & b & -> & Hm). now exists (String c a), m, b.
Qed.

(** Where the pattern matches nowhere, the scan copies the text. *)
Lemma sub_from_no_match (p : pattern) (items : list repl_item) (s : string) :
  ~ occurs_in p s -> sub_from p items 0 s = s.
Proof.
  induction s as [|c s IH]; intros Hno; cbn [sub_from].
  - destruct (match_here p EmptyString) as [[v n]|] eqn:H; [| reflexivity].
    exfalso. eauto using match_here_occurs.
  - destruct (match_here p (String c s)) as [[v n]|] eqn:H.
    + exfalso. eauto using match_here_occurs.
    + rewrite IH; [reflexivity |]. eauto using occurs_in_cons.
Qed.

Lemma rsplit_found (t x y : string) : rsplit t (x +:+ t +:+ y) <> None.
Proof.
  induction x as [|c x IH]; simpl.
  - destruct (t +:+ y) as [|c s] eqn:E; simpl.
    + destruct t; [discriminate | discriminate].
    + destruct (rsplit t s) as [[a b]|]; [discriminate |].
      rewrite <- E, strip_prefix_app. discriminate.
  - destruct (rsplit t (x +:+ t +:+ y)) as [[a b]|]; [discriminate | congruence].
Qed.

(** [re.search] finds every occurrence there is. *)
Lemma search_complete (p : pattern) (s : string) :
  single_line (tail p) = true -> occurs_in p s -> re_search_value p s <> None.
Proof.
  intros Ht (a & m & b & -> & Hm).
  induction a as [|c a IH].
  - cbn [String.append]. destruct (key p +:+ m +:+ tail p +:+ b) as [|c s] eqn:E;
      cbn [re_search_value]; rewrite <- E.
    all: unfold match_here; rewrite strip_prefix_app.
    all: destruct (break_line_spec b) as (Hb & Hbl & Hbr).
    all: replace (m +:+ tail p +:+ b)
           with ((m +:+ tail p +:+ fst (break_line b)) +:+ snd (break_line b))
           by (rewrite Hb at 3; now rewrite !sapp_assoc).
    all: rewrite break_line_app;
      [| now rewrite !single_line_app, Hm, Ht, Hbl | exact Hbr].
    all: cbn [fst]; pose proof (rsplit_found (tail p) m (fst (break_line b))) as Hf.
    all: destruct (rsplit (tail p) (m +:+ tail p +:+ fst (break_line b)))
           as [[v w]|]; [discriminate | congruence].
  - cbn [String.append re_search_value].
    destruct (match_here p (String c (a +:+ key p +:+ m +:+ tail p +:+ b)))
      as [[v n]|]; [discriminate | exact IH].
Qed.

Lemma sub_from_skip (p : pattern) (items : list repl_item) (x y : string) :
  sub_from p items (String.length x) (x +:+ y) = sub_from p items 0 y.
Proof.
  induction x as [|c x IH]; simpl; [reflexivity | exact IH].
Qed.

(** The match at the target line takes exactly the old value. *)
Lemma match_here_target (p : pattern) (old post : string) :
  single_line old = true -> single_line (tail p) = true -> at_line_end post ->
  match_here p (key p +:+ old +:+ tail p +:+ post)
  = Some (old, String.length (key p) + String.length old + String.length (tail p)).
Proof.
  intros Ho Ht Hp. unfold match_here. rewrite strip_prefix_app.
  rewrite <- sapp_assoc, break_line_app;
    [| now rewrite single_line_app, Ho, Ht | exact Hp].
  cbn [fst]. now rewrite rsplit_app_end.
Qed.

Lemma first_at_cons (p : pattern) (c : ascii) (pre : string) :
  first_at p (String c pre) -> first_at p pre.
Proof.
  intros H a b E. apply (H (String c a) b). simpl. now rewrite E.
Qed.

Lemma no_earlier_match (p : pattern) (c : ascii) (pre rest : string) :
  first_at p (String c pre) ->
  match_here p (String c pre +:+ key p +:+ rest) = None.
Proof.
  intros Hfirst. unfold match_here.
  destruct (strip_prefix (key p) (String c pre +:+ key p +:+ rest)) as [r|] eqn:Hk;
    [| reflexivity].
  exfalso. apply strip_prefix_Some in Hk. rewrite <- sapp_assoc in Hk.
  destruct (prefix_of_app _ _ _ _ Hk) as [b Hb].
  { rewrite slength_app. lia. }
  pose proof (Hfirst EmptyString b Hb) as ->.
  apply (f_equal String.length) in Hb.
  rewrite !slength_app in Hb. simpl in Hb. lia.
Qed.

Lemma sub_from_before (p : pattern) (items : list repl_item) (pre rest : string) :
  first_at p pre ->
  sub_from p items 0 (pre +:+ key p +:+ rest)
  = pre +:+ sub_from p items 0 (key p +:+ rest).
Proof.
  induction pre as [|c pre IH]; intros Hfirst; [reflexivity |].
  pose proof (no_earlier_match p c pre rest Hfirst) as Hnone.
  cbn [String.append] in *. cbn [sub_from]. rewrite Hnone.
  rewrite IH; [reflexivity |]. eauto using first_at_cons.
Qed.

Lemma search_before (p : pattern) (pre rest : string) :
  first_at p pre ->
  re_search_value p (pre +:+ key p +:+ rest) = re_search_value p (key p +:+ rest).
Proof.
  induction pre as [|c pre IH]; intros Hfirst; [reflexivity |].
  pose proof (no_earlier_match p c pre rest Hfirst) as Hnone.
  cbn [String.append] in *. cbn [re_search_value]. rewrite Hnone.
  apply IH. eauto using first_at_cons.
Qed.

Lemma not_contains_occurs (p : pattern) (s : string) :
  ~ contains (key p) s -> ~ occurs_in p s.
Proof.
  intros Hno (a & m & b & -> & _). apply Hno.
  now exists a, (m +:+ tail p +:+ b).
Qed.

Lemma sub_from_target (p : pattern) (v old post : string) (items : list repl_item) :
  single_line old = true -> single_line (tail p) = true -> at_line_end post ->
  ~ contains (key p) post ->
  sub_from p items 0 (key p +:+ old +:+ tail p +:+ post) = expand p old items +:+ post.
Proof.
  intros Ho Ht Hp Hno.
  pose proof (match_here_target p old post Ho Ht Hp) as Hm.
  destruct (key p) as [|c k] eqn:Ek.
  { exfalso. apply Hno. now exists EmptyString, post. }
  cbn [String.append String.length Nat.add] in *. cbn [sub_from]. rewrite Hm.
  f_equal.
  replace (k +:+ old +:+ tail p +:+ post) with ((k +:+ old +:+ tail p) +:+ post)
    by now rewrite !sapp_assoc.
  replace (String.length k + String.length old + String.length (tail p))
    with (String.length (k +:+ old +:+ tail p))
    by (rewrite !slength_app; lia).
  rewrite sub_from_skip. apply sub_from_no_match, not_contains_occurs.
  now rewrite Ek.
Qed.

Lemma contains_b_false (k s : string) : contains_b k s = false -> ~ contains k s.
Proof.
  intros Hb (a & b & ->). induction a as [|c a IH]; cbn [String.append] in Hb.
  - destruct (k +:+ b) as [|c r] eqn:E; cbn [contains_b] in Hb;
      rewrite <- E, strip_prefix_app in Hb; discriminate.
  - cbn [contains_b] in Hb.
    destruct (strip_prefix k (String c (a +:+ k +:+ b))); [discriminate | auto].
Qed.

Lemma first_at_check (p : pattern) (pre : string) :
  starts_within (key p) (String.length pre) (pre +:+ key p) = false -> first_at p pre.
Proof.
  induction pre as [|c pre IH]; intros Hb a b E.
  - cbn [String.append] in E. apply (f_equal String.length) in E.
    rewrite !slength_app in E. apply length_zero. lia.
  - cbn [String.length String.append starts_within] in Hb.
    destruct (strip_prefix (key p) (String c (pre +:+ key p))) eqn:Hk; [discriminate |].
    destruct a as [|d a]; cbn [String.append] in E.
    + exfalso. refine (strip_prefix_None _ _ Hk b _). exact E.
    + injection E as _ E. exact (IH Hb a b E).
Qed.

End ReFacts.

(** ** The monad and the primitives of the runtime *)

Module PyFacts.
Import PyStr Py Common Props.
Local Open Scope py_scope.

Lemma wp_bind {A B} (m : M A) (k : A -> M B) (w : world) (Q : result B -> world -> Prop) :
  wp m w (fun r w1 => match r with
                      | Ok a => wp (k a) w1 Q
                      | Raise e => Q (Raise e) w1
                      end) ->
  wp (bind m k) w Q.
Proof.
  unfold wp, bind. destruct (m w) as [[a|e] w1]; simpl; auto.
Qed.

Lemma wp_mono {A} (m : M A) (w : world) (Q Q' : result A -> world -> Prop) :
  wp m w Q -> (forall r w', Q r w' -> Q' r w') -> wp m w Q'.
Proof. unfold wp; auto. Qed.

Lemma wp_ret {A} (a : A) (w : world) (Q : result A -> world -> Prop) :
  Q (Ok a) w -> wp (ret a) w Q.
Proof. auto. Qed.

Lemma wp_raise {A} (e : exn) (w : world) (Q : result A -> world -> Prop) :
  Q (Raise e) w -> wp (raise e) w Q.
Proof. auto. Qed.

Lemma wp_lift {A} (x : result A) (w : world) (Q : result A -> world -> Prop) :
  Q x w -> wp (lift x) w Q.
Proof. auto. Qed.

Lemma path_join_abs (a b : string) : is_abs b = true -> path_join a b = b.
Proof. unfold path_join, is_abs. now intros ->. Qed.

Lemma run_command_spec (rt : runtime) (cmd : string) (capture : bool) (w : world) :
  wp (run_command rt cmd capture) w (fun r w' =>
    cwd w' = cwd w /\
    match r with
    | Ok cp => trace w' = trace w ++ [EvExec (argv rt cmd)]
               /\ returncode cp = 0%Z /\ args cp = argv rt cmd
               /\ (capture = true -> exists out, stdout cp = Some out)
    | Raise e => trace w' = trace w
                 \/ (trace w' = trace w ++ [EvExec (argv rt cmd)]
                     /\ exists msg, e = RuntimeError msg)
    end).
Proof.
  unfold wp, run_command, bind, lift, subprocess_run, ret, raise, argv.
  destruct (shlex_split rt cmd) as [sargs|e]; simpl; [| auto].
  destruct (spawn rt sargs capture w) as [[[rc out]|e] fs']; simpl; [| auto].
  destruct (Z.eqb_spec rc 0) as [->|Hrc]; simpl.
  - repeat split; auto. intros ->. eauto.
  - split; [reflexivity |]. right. eauto.
Qed.

Lemma write_file_spec (p content : string) (w : world) :
  wp (write_file p content) w (fun r w' =>
    cwd w' = cwd w /\
    match r with
    | Ok _ => trace w' = trace w ++ [EvWrite (resolve w p) content]
              /\ files (fs w') = <[resolve w p := content]> (files (fs w))
              /\ dirs (fs w') = dirs (fs w)
    | Raise _ => w' = w
    end).
Proof.
  unfold wp, write_file.
  destruct (decide (resolve w p ∈ dirs (fs w))); [simpl; auto |].
  destruct (_ || _); simpl; auto.
Qed.

Lemma read_file_spec (p : string) (w : world) :
  wp (read_file p) w (fun r w' =>
    w' = w /\
    match r with
    | Ok content => files (fs w) !! resolve w p = Some content
    | Raise _ => True
    end).
Proof.
  unfold wp, read_file. destruct (files (fs w) !! resolve w p); simpl; auto.
Qed.

Lemma chdir_spec (p : string) (w : world) :
  wp (chdir p) w (fun r w' =>
    trace w' = trace w /\ fs w' = fs w /\
    match r with
    | Ok _ => cwd w' = resolve w p /\ resolve w p ∈ dirs (fs w)
    | Raise _ => w' = w
    end).
Proof.
  unfold wp, chdir. destruct (decide (resolve w p ∈ dirs (fs w))); simpl; auto.
Qed.

Lemma makedirs_spec (p : string) (w : world) :
  wp (makedirs p) w (fun r w' =>
    trace w' = trace w /\ cwd w' = cwd w /\ files (fs w') = files (fs w)).
Proof.
  unfold wp, makedirs. destruct (find _ _); simpl; auto.
Qed.


End PyFacts.

(** ** The drivers *)

Module DriverFacts.
Import PyStr Py Common Props PyFacts.
Local Open Scope py_scope.

Ltac wp_step spec :=
  apply wp_bind; eapply wp_mono; [apply spec |]; cbv beta.

Lemma began_nil (full : list event) : began [] full.
Proof. apply prefix_nil. Qed.

Lemma began_refl (full : list event) : began full full.
Proof. reflexivity. Qed.

Lemma began_take (n : nat) (full : list event) : began (List.firstn n full) full.
Proof. exists (List.skipn n full). symmetry. apply firstn_skipn. Qed.

Lemma trace_nil (w : world) : trace w = trace w ++ [].
Proof. now rewrite app_nil_r. Qed.

Lemma no_write_nil : no_write [].
Proof. intros path content H. now apply elem_of_nil in H. Qed.

Lemma no_write_exec (sargs : list string) : no_write [EvExec sargs].
Proof.
  intros path content H. apply list_elem_of_singleton in H. discriminate.
Qed.

(** *** The GLM driver, block by block *)

Lemma set_parameters_spec (rt : runtime) (workingDir runDir : string) (w : world) :
  wp (GLM1.set_parameters rt workingDir runDir) w (fun r w' =>
    cwd w' = cwd w /\
    let h := EvExec (argv rt ("sh getNumVolume.sh " +:+ GLM1.input_feat_file runDir)) in
    match r with
    | Ok params =>
        trace w' = trace w ++ [h]
        /\ exists n, params = GLM1.run_params workingDir runDir n
    | Raise _ => trace w' = trace w \/ trace w' = trace w ++ [h]
    end).
Proof.
  unfold GLM1.set_parameters.
  wp_step run_command_spec. intros [cp|e] w1 [Hc H].
  - destruct H as (Htr & _ & _ & Hout). destruct (Hout eq_refl) as [out Hcp].
    apply wp_bind. unfold int_of_stdout. rewrite Hcp. apply wp_lift.
    destruct (py_int rt out) as [n|e].
    + apply wp_ret. eauto.
    + auto.
  - split; [exact Hc |]. destruct H as [H|[H _]]; auto.
Qed.

Lemma create_fsf_spec (rt : runtime) (T runDir : string)
    (params : gmap string value) (w : world) :
  wp (GLM1.create_fsf rt T runDir params) w (fun r w' =>
    cwd w' = cwd w /\
    match r with
    | Ok _ => exists doc,
        GLM1.fill_in_template rt T params = Ok doc
        /\ trace w' = trace w ++ [EvWrite (resolve w (GLM1.blockGLMPath runDir)) doc]
        /\ files (fs w') = <[resolve w (GLM1.blockGLMPath runDir) := doc]> (files (fs w))
    | Raise e => w' = w
    end).
Proof.
  unfold GLM1.create_fsf. apply wp_bind, wp_lift.
  destruct (GLM1.fill_in_template rt T params) as [doc|e]; [| auto].
  eapply wp_mono; [apply write_file_spec |].
  intros [[]|e] w1 [Hc H]; [| auto].
  destruct H as (Htr & Hf & _). eauto.
Qed.

Lemma GLM1_run_FEAT_spec (rt : runtime) (runDir : string) (w : world) :
  wp (GLM1.run_FEAT rt runDir) w (fun r w' =>
    let f := EvExec (argv rt (feat_command (GLM1.blockGLMPath runDir))) in
    match r with
    | Ok _ => trace w' = trace w ++ [f] /\ (is_abs (cwd w) = true -> cwd w' = cwd w)
    | Raise _ => trace w' = trace w \/ trace w' = trace w ++ [f]
    end).
Proof.
  unfold GLM1.run_FEAT. apply wp_bind. unfold wp at 1, getcwd. cbn [fst snd].
  wp_step chdir_spec. intros [[]|e] w1 (Htr1 & _ & H1); [| subst; auto].
  wp_step run_command_spec. intros [cp|e] w2 [Hc2 H2].
  - destruct H2 as (Htr2 & _).
    eapply wp_mono; [apply chdir_spec |].
    intros [[]|e] w3 (Htr3 & _ & H3).
    + split; [congruence |]. intros Habs. destruct H3 as [-> _].
      now apply path_join_abs.
    + subst w3. right. congruence.
  - destruct H2 as [H2|[H2 _]]; [left | right]; congruence.
Qed.

Lemma session_GLM_run_spec (rt : runtime) (workingDir T runDir : string) (w : world) :
  wp (GLM1.session_GLM_run rt workingDir T runDir) w (fun r w' =>
    exists evs doc,
      trace w' = trace w ++ evs
      /\ began evs (GLM1_run_events rt (cwd w) runDir doc)
      /\ (r = Ok tt ->
          evs = GLM1_run_events rt (cwd w) runDir doc
          /\ exists n, GLM1.fill_in_template rt T (GLM1.run_params workingDir runDir n) = Ok doc)).
Proof.
  unfold GLM1.session_GLM_run, GLM1_run_events.
  wp_step set_parameters_spec. intros [params|e] w1 [Hc1 H1]; cbv zeta in H1.
  - destruct H1 as (Htr1 & n & ->).
    wp_step create_fsf_spec. intros [[]|e] w2 [Hc2 H2].
    + destruct H2 as (doc & Hdoc & Htr2 & _).
      eapply wp_mono; [apply GLM1_run_FEAT_spec |].
      unfold resolve in Htr2. rewrite Hc1 in Htr2.
      intros [[]|e] w3 H3; cbv zeta in H3.
      * destruct H3 as [Htr3 _]. eexists _, doc. split; [| split].
        -- rewrite Htr3, Htr2, Htr1, <- !app_assoc. reflexivity.
        -- apply began_refl.
        -- eauto.
      * destruct H3 as [Htr3|Htr3]; eexists _, doc; (split; [| split; [| discriminate]]).
        -- rewrite Htr3, Htr2, Htr1, <- !app_assoc. reflexivity.
        -- apply (began_take 2).
        -- rewrite Htr3, Htr2, Htr1, <- !app_assoc. reflexivity.
        -- apply began_refl.
    + subst w2. eexists _, EmptyString. split; [exact Htr1 |].
      split; [apply (began_take 1) | discriminate].
  - destruct H1 as [Htr1|Htr1]; eexists _, EmptyString; (split; [| split; [| discriminate]]).
    + rewrite Htr1. apply trace_nil.
    + apply began_nil.
    + exact Htr1.
    + apply (began_take 1).
Qed.

(** *** The FEAT driver, block by block *)




Lemma FEAT_run_FEAT_spec (rt : runtime) (workingDir cur_nifii : string) (w : world) :
  wp (FEAT.run_FEAT rt workingDir cur_nifii) w (fun r w' =>
    let f := EvExec (argv rt (feat_command (FEAT.block_design_path workingDir cur_nifii))) in
    match r with
    | Ok _ => trace w' = trace w ++ [f] /\ (is_abs workingDir = true -> cwd w' = workingDir)
    | Raise _ => trace w' = trace w \/ trace w' = trace w ++ [f]
    end).
Proof.
  unfold FEAT.run_FEAT.
  wp_step chdir_spec. intros [[]|e] w1 (Htr1 & _ & H1); [| subst; auto].
  wp_step run_command_spec. intros [cp|e] w2 [Hc2 H2].
  - destruct H2 as (Htr2 & _).
    eapply wp_mono; [apply chdir_spec |].
    intros [[]|e] w3 (Htr3 & _ & H3).
    + split; [congruence |]. intros Habs. destruct H3 as [-> _].
      now apply path_join_abs.
    + subst w3. right. congruence.
  - destruct H2 as [H2|[H2 _]]; [left | right]; congruence.
Qed.


(** *** Loops *)

Lemma for_each_raise {A} (body : A -> M unit) (x : A) (rest : list A) (w : world) :
  is_ok (fst (body x w)) = false ->
  for_each (x :: rest) body w = body x w.
Proof.
  cbn [for_each]. unfold bind. destruct (body x w) as [[[]|e] w1]; simpl; [discriminate | reflexivity].
Qed.


(** *** The set-up of the FEAT driver *)

Lemma setup_spec (rt : runtime) (w : world) :
  wp (FEAT.setup rt) w (fun r w' =>
    cwd w' = cwd w /\
    match r with
    | Ok workingDir =>
        workingDir = cwd w
        /\ exists directories PD_dir t new,
            files (fs w) !! resolve w (path_join (cwd w) "directories.ini") = Some directories
            /\ Re.re_search_value FEAT.pat_PD_dir directories = Some PD_dir
            /\ files (fs w) !! resolve w (FEAT.template_path (cwd w)) = Some t
            /\ Re.re_sub rt FEAT.pat_highres
                 (FEAT.repl_quoted
                    (path_join (abspath rt (cwd w) PD_dir) FEAT.STRUCTURALFILENAME)) t
               = Ok new
            /\ trace w' = trace w ++ [EvWrite (resolve w (FEAT.template_path (cwd w))) new]
            /\ files (fs w') = <[resolve w (FEAT.template_path (cwd w)) := new]> (files (fs w))
    | Raise _ => w' = w
    end).
Proof.
  unfold FEAT.setup. apply wp_bind. unfold wp at 1, getcwd. cbn [fst snd].
  wp_step read_file_spec. intros [directories|e] w1 [-> Hd]; [| auto].
  apply wp_bind.
  destruct (Re.re_search_value FEAT.pat_PD_dir directories) as [PD_dir|] eqn:Hpd;
    [apply wp_ret | apply wp_raise; auto].
  wp_step read_file_spec. intros [t|e] w1 [-> Ht]; [| auto].
  apply wp_bind, wp_lift.
  destruct (Re.re_sub rt _ _ t) as [new|e] eqn:Hnew; [| auto].
  wp_step write_file_spec. intros [[]|e] w1 [Hc H1]; [| auto].
  destruct H1 as (Htr & Hf & _). apply wp_ret.
  split; [exact Hc |]. split; [reflexivity |].
  exists directories, PD_dir, t, new. auto 10.
Qed.

End DriverFacts.

(** ** Named placeholders *)

Module FmtFacts.
Import PyStr Py Fmt Props.

Lemma render_field_missing (rt : runtime) (params : gmap string value)
    (name : string) (conv : option ascii) (spec : string) :
  params !! arg_name name = None -> raised (render_field rt params name conv spec).
Proof.
  unfold render_field, arg_name. destruct (split_arg name) as [arg acc]. cbn [fst].
  intros Hnone. destruct (positional arg); [now eexists |].
  rewrite Hnone. now eexists.
Qed.

Lemma render_field_key_error (rt : runtime) (params : gmap string value)
    (name : string) (conv : option ascii) (spec : string) :
  positional (arg_name name) = false -> params !! arg_name name = None ->
  render_field rt params name conv spec = Raise (KeyError (arg_name name)).
Proof.
  unfold render_field, arg_name. destruct (split_arg name) as [arg acc]. cbn [fst].
  now intros -> ->.
Qed.

(** A field whose argument is missing makes the rendering fail, at that
    field or before it. *)
Lemma render_missing (rt : runtime) (params : gmap string value)
    (ps : list piece) (name : string) :
  In name (piece_names ps) -> params !! name = None -> raised (render rt params ps).
Proof.
  intros Hin Hnone. induction ps as [|pc ps IH]; [destruct Hin |].
  destruct pc as [c|fname conv spec]; cbn [render piece_names flat_map] in *.
  - destruct (IH Hin) as [e ->]. now eexists.
  - destruct (render_field rt params fname conv spec) as [f|e] eqn:Hf; [| now eexists].
    apply in_app_or in Hin as [[<-|[]]|Hin].
    + destruct (render_field_missing rt params fname conv spec Hnone) as [e He].
      congruence.
    + destruct (IH Hin) as [e ->]. now eexists.
Qed.

Lemma format_missing (rt : runtime) (template : string) (params : gmap string value)
    (name : string) :
  In name (placeholders template) -> params !! name = None ->
  raised (format rt template params).
Proof.
  unfold placeholders, format. destruct (scan SText template) as [ps err]. cbn [fst].
  intros Hin Hnone. destruct (render_missing rt params ps name Hin Hnone) as [e ->].
  now eexists.
Qed.

Lemma render_app_key_error (rt : runtime) (params : gmap string value)
    (ps1 ps2 : list piece) (s1 name : string) (conv : option ascii) (spec : string) :
  render rt params ps1 = Ok s1 ->
  positional (arg_name name) = false -> params !! arg_name name = None ->
  render rt params (ps1 ++ PField name conv spec :: ps2) = Raise (KeyError (arg_name name)).
Proof.
  revert s1. induction ps1 as [|pc ps1 IH]; intros s1 H1 Hpos Hnone.
  - cbn [app render]. now rewrite render_field_key_error.
  - destruct pc as [c|fname fconv fspec]; cbn [app render] in *.
    + destruct (render rt params ps1) as [s|e]; [| discriminate].
      now rewrite (IH s).
    + destruct (render_field rt params fname fconv fspec) as [f|e]; [| discriminate].
      destruct (render rt params ps1) as [s|e]; [| discriminate].
      now rewrite (IH s).
Qed.

(** The error is the [KeyError] of the first field whose argument is
    missing, when the fields before it render. *)
Lemma format_key_error (rt : runtime) (template : string) (params : gmap string value)
    (ps1 ps2 : list piece) (err : option string)
    (s1 name : string) (conv : option ascii) (spec : string) :
  scan SText template = (ps1 ++ PField name conv spec :: ps2, err) ->
  render rt params ps1 = Ok s1 ->
  positional (arg_name name) = false -> params !! arg_name name = None ->
  format rt template params = Raise (KeyError (arg_name name)).
Proof.
  intros Hscan H1 Hpos Hnone. unfold format. rewrite Hscan.
  now rewrite (render_app_key_error rt params ps1 ps2 s1 name conv spec).
Qed.

End FmtFacts.

(** ** Manifests *)

Module LinesFacts.
Import PyStr Py Props StrFacts.

Lemma concat_file_lines (s : string) : concat_lines (file_lines s) = s.
Proof.
  induction s as [|c s IH]; [reflexivity |].
  cbn [file_lines]. destruct (Ascii.eqb c nl).
  - cbn [concat_lines]. simpl. now rewrite IH.
  - destruct (file_lines s) as [|l ls]; cbn [concat_lines] in *.
    + now rewrite <- IH.
    + simpl. now rewrite IH.
Qed.

Lemma file_lines_shape (s : string) :
  Forall (fun line => exists body, line_of body line) (file_lines s).
Proof.
  induction s as [|c s IH]; [constructor |].
  cbn [file_lines]. destruct (Ascii.eqb_spec c nl) as [->|Hc].
  - constructor; [| exact IH].
    exists EmptyString. split; [reflexivity | now left].
  - assert (Hsl : forall b, single_line b = true -> single_line (String c b) = true).
    { intros b Hb. cbn [single_line]. rewrite Hb.
      now destruct (Ascii.eqb_spec c nl). }
    destruct (file_lines s) as [|l ls].
    + repeat constructor. exists (String c EmptyString).
      split; [now apply Hsl | now right].
    + inversion IH as [|? ? (b & Hb & Hl) Hls]; subst. constructor; [| exact Hls].
      exists (String c b). split; [now apply Hsl |].
      destruct Hl as [->|[-> _]]; [now left | now right].
Qed.

Lemma input_folders_from (workingDir : string) (lines acc : list string) :
  fold_left
    (fun inputFolders inputFilename =>
       inputFolders ++ [path_join workingDir ("run" +:+ take 2 inputFilename)])
    lines acc
  = acc ++ map (fun line => path_join workingDir ("run" +:+ take 2 line)) lines.
Proof.
  revert acc; induction lines as [|l lines IH]; intros acc; cbn [fold_left map].
  - now rewrite app_nil_r.
  - rewrite IH, <- app_assoc. reflexivity.
Qed.

Lemma input_folders_map (workingDir : string) (lines : list string) :
  GLM1.input_folders workingDir lines
  = map (fun line => path_join workingDir ("run" +:+ take 2 line)) lines.
Proof. unfold GLM1.input_folders. now rewrite input_folders_from. Qed.

(** The identifier of a line with two characters or more before its end
    is these two characters. *)
Lemma take_2_line (body line : string) :
  line_of body line -> 2 <= String.length body ->
  take 2 line = take 2 body
  /\ String.length (take 2 line) = 2
  /\ single_line (take 2 line) = true.
Proof.
  intros [Hb Hl] Hlen.
  assert (take 2 line = take 2 body) as ->.
  { destruct Hl as [->|[-> _]]; [now apply take_app | reflexivity]. }
  split; [reflexivity |]. split; [now apply take_length | now apply single_line_take].
Qed.

End LinesFacts.

(** ** The batch as a whole *)

Module MainFacts.
Import PyStr Py Re Common Props PyFacts DriverFacts.


End MainFacts.

(** ** Runs and batches, one event after the other *)

Module RunFacts.
Import PyStr Py Re Common Props Runs PyFacts DriverFacts.
Local Open Scope py_scope.

Lemma for_each_runs {A} (body : A -> M unit) (I : world -> Prop)
    (complete begun : A -> list event -> Prop) :
  (forall x w, I w -> exists evs,
      trace (snd (body x w)) = trace w ++ evs
      /\ begun x evs
      /\ (fst (body x w) = Ok tt -> I (snd (body x w)) /\ complete x evs)) ->
  forall xs w, I w -> exists evs,
    trace (snd (for_each xs body w)) = trace w ++ evs
    /\ runs_in_order complete begun xs (is_ok (fst (for_each xs body w))) evs.
Proof.
  intros Hbody xs. induction xs as [|x xs IH]; intros w HI.
  - exists []. split; [apply trace_nil |]. exists []. split; [reflexivity | constructor].
  - cbn [for_each]. unfold bind.
    destruct (Hbody x w HI) as (evs & Htr & Hbegun & Hcomplete).
    destruct (body x w) as [[[]|e] w1]; cbn [fst snd] in *.
    + destruct (Hcomplete eq_refl) as [HI1 Hc].
      destruct (IH w1 HI1) as (evs' & Htr' & Hruns).
      exists (evs ++ evs'). split; [rewrite Htr', Htr, app_assoc; reflexivity |].
      destruct (is_ok (fst (for_each xs body w1))); cbn [runs_in_order] in *.
      * destruct Hruns as (segs & -> & Hall).
        exists (evs :: segs). split; [reflexivity | now constructor].
      * destruct Hruns as (done & y & later & segs & seg & -> & -> & Hall & Hy).
        exists (x :: done), y, later, (evs :: segs), seg.
        split; [reflexivity |]. split; [cbn [concat]; now rewrite <- app_assoc |].
        split; [now constructor | exact Hy].
    + exists evs. split; [exact Htr |].
      exists [], x, xs, [], evs. split; [reflexivity |]. split; [reflexivity |].
      split; [constructor | exact Hbegun].
Qed.

(** *** The GLM driver *)

Lemma session_GLM_run_cwd (rt : runtime) (workingDir T runDir : string) (w : world) :
  wp (GLM1.session_GLM_run rt workingDir T runDir) w (fun r w' =>
    r = Ok tt -> is_abs (cwd w) = true -> cwd w' = cwd w).
Proof.
  unfold GLM1.session_GLM_run.
  wp_step set_parameters_spec. intros [params|e] w1 [Hc1 _]; [| discriminate].
  wp_step create_fsf_spec. intros [[]|e] w2 [Hc2 _]; [| discriminate].
  eapply wp_mono; [apply GLM1_run_FEAT_spec |]. cbv zeta.
  intros [[]|e] w3 H3; [| discriminate].
  intros _ Habs. destruct H3 as [_ H3]. rewrite H3; congruence.
Qed.

Lemma session_GLM_run_full (rt : runtime) (workingDir T runDir : string) (w : world) :
  exists evs,
    trace (snd (GLM1.session_GLM_run rt workingDir T runDir w)) = trace w ++ evs
    /\ GLM1_begun_run rt (cwd w) runDir evs
    /\ (fst (GLM1.session_GLM_run rt workingDir T runDir w) = Ok tt ->
        (is_abs (cwd w) = true ->
         cwd (snd (GLM1.session_GLM_run rt workingDir T runDir w)) = cwd w)
        /\ GLM1_complete_run rt workingDir T (cwd w) runDir evs).
Proof.
  pose proof (session_GLM_run_cwd rt workingDir T runDir w) as Hcwd.
  destruct (session_GLM_run_spec rt workingDir T runDir w)
    as (evs & doc & Htr & Hbegan & Hfull).
  unfold wp in Hcwd. exists evs. split; [exact Htr |]. split; [now exists doc |].
  intros Hok. split; [now apply Hcwd |].
  destruct (Hfull Hok) as (-> & n & Hdoc). now exists n, doc.
Qed.

(** *** The FEAT driver *)

Lemma copy_target (src dst : string) (w : world) :
  wp (copy src dst) w (fun r w' =>
    cwd w' = cwd w /\
    match r with
    | Ok _ => exists q t,
        files (fs w) !! resolve w src = Some t
        /\ trace w' = trace w ++ [EvWrite q t]
        /\ (q = resolve w dst \/ q = resolve w (path_join dst (basename src)))
    | Raise _ => w' = w
    end).
Proof.
  unfold copy. apply wp_bind.
  eapply wp_mono; [apply read_file_spec |].
  intros [t|e] w1 [-> Ht]; [| auto].
  apply wp_bind. unfold wp at 1. cbn [fst snd].
  eapply wp_mono; [apply write_file_spec |].
  intros [[]|e] w1 [Hc H]; [| auto].
  destruct H as (Htr & _). split; [exact Hc |].
  exists (resolve w (if bool_decide (resolve w dst ∈ dirs (fs w))
                      then path_join dst (basename src) else dst)), t.
  split; [exact Ht |]. split; [exact Htr |].
  destruct (bool_decide (resolve w dst ∈ dirs (fs w))); auto.
Qed.

Lemma FEAT_create_fsf_full (rt : runtime) (workingDir cur_nifii : string) (w : world) :
  wp (FEAT.create_fsf rt workingDir cur_nifii) w (fun r w' =>
    cwd w' = cwd w /\
    exists evs copied t,
      trace w' = trace w ++ evs
      /\ copied ∈ FEAT_copy_targets (cwd w) workingDir cur_nifii
      /\ (evs <> [] -> files (fs w) !! resolve w (FEAT.template_path workingDir) = Some t)
      /\ match r with
         | Ok n => exists design design' doc TR_duration,
             re_sub rt FEAT.pat_npts (FEAT.repl_number (pretty n)) design = Ok design'
             /\ re_sub rt FEAT.pat_tr (FEAT.repl_number (format_6f rt TR_duration)) design'
                = Ok doc
             /\ evs = FEAT_derive_events rt workingDir cur_nifii copied t
                      ++ [EvWrite (resolve w (FEAT.block_design_path workingDir cur_nifii)) doc]
         | Raise _ => began evs (FEAT_derive_events rt workingDir cur_nifii copied t)
         end).
Proof.
  unfold FEAT.create_fsf, FEAT_derive_events.
  wp_step copy_target. intros [[]|e] w1 [Hc1 H1].
  2:{ subst w1. split; [reflexivity |].
      exists [], (path_join (cwd w) (FEAT.block_design_path workingDir cur_nifii)), EmptyString.
      split; [apply trace_nil |]. split; [apply list_elem_of_here |].
      split; [congruence | apply began_nil]. }
  destruct H1 as (copied & t & Ht & Htr1 & Hcopied).
  assert (Hin : copied ∈ FEAT_copy_targets (cwd w) workingDir cur_nifii).
  { unfold FEAT_copy_targets. destruct Hcopied as [-> | ->].
    - apply list_elem_of_here.
    - apply list_elem_of_further, list_elem_of_here. }
  assert (Hstop : forall (k : nat) w' evs,
            trace w' = trace w ++ evs ->
            evs = List.firstn k [EvWrite copied t;
                                 EvExec (argv rt (volume_command workingDir cur_nifii));
                                 EvExec (argv rt (TR_command workingDir cur_nifii))] ->
            cwd w' = cwd w ->
            cwd w' = cwd w /\
            exists evs copied0 t0,
              trace w' = trace w ++ evs
              /\ copied0 ∈ FEAT_copy_targets (cwd w) workingDir cur_nifii
              /\ (evs <> [] ->
                  files (fs w) !! resolve w (FEAT.template_path workingDir) = Some t0)
              /\ began evs [EvWrite copied0 t0;
                            EvExec (argv rt (volume_command workingDir cur_nifii));
                            EvExec (argv rt (TR_command workingDir cur_nifii))]).
  { intros k w' evs Htr -> Hc. split; [exact Hc |]. eexists _, copied, t.
    split; [exact Htr |]. split; [exact Hin |]. split; [auto | apply began_take]. }
  wp_step read_file_spec. intros [block_design|e] w2 [-> _];
    [| now apply (Hstop 1 w1 _ Htr1)].
  apply wp_bind, wp_lift. destruct (re_sub rt _ _ _) as [bd1|e];
    [| now apply (Hstop 1 w1 _ Htr1)].
  apply wp_bind, wp_lift. destruct (re_sub rt _ _ _) as [bd2|e];
    [| now apply (Hstop 1 w1 _ Htr1)].
  apply wp_bind, wp_lift. destruct (re_sub rt _ _ _) as [bd3|e];
    [| now apply (Hstop 1 w1 _ Htr1)].
  wp_step run_command_spec. fold (volume_command workingDir cur_nifii).
  intros [cp|e] w2 [Hc2 H2].
  2:{ destruct H2 as [H2|[H2 _]].
      - apply (Hstop 1 w2 [EvWrite copied t]); [congruence | reflexivity | congruence].
      - apply (Hstop 2 w2 [EvWrite copied t;
                           EvExec (argv rt (volume_command workingDir cur_nifii))]);
          [rewrite H2, Htr1, <- app_assoc; reflexivity | reflexivity | congruence]. }
  destruct H2 as (Htr2 & _ & _ & Hout). destruct (Hout eq_refl) as [out Hcp].
  assert (Htr2' : trace w2 = trace w ++ [EvWrite copied t;
                    EvExec (argv rt (volume_command workingDir cur_nifii))])
    by (rewrite Htr2, Htr1, <- app_assoc; reflexivity).
  assert (Hc2' : cwd w2 = cwd w) by congruence.
  apply wp_bind. unfold int_of_stdout. rewrite Hcp. apply wp_lift.
  destruct (py_int rt out) as [num_volume|e]; [| now apply (Hstop 2 w2 _ Htr2')].
  apply wp_bind, wp_lift.
  destruct (re_sub rt FEAT.pat_npts _ bd3) as [bd4|e] eqn:Hbd4;
    [| now apply (Hstop 2 w2 _ Htr2')].
  wp_step run_command_spec. fold (TR_command workingDir cur_nifii).
  intros [cp'|e] w3 [Hc3 H3].
  2:{ destruct H3 as [H3|[H3 _]].
      - apply (Hstop 2 w3 [EvWrite copied t;
                           EvExec (argv rt (volume_command workingDir cur_nifii))]);
          [congruence | reflexivity | congruence].
      - apply (Hstop 3 w3 [EvWrite copied t;
                           EvExec (argv rt (volume_command workingDir cur_nifii));
                           EvExec (argv rt (TR_command workingDir cur_nifii))]);
          [rewrite H3, Htr2', <- app_assoc; reflexivity | reflexivity | congruence]. }
  destruct H3 as (Htr3 & _ & _ & Hout'). destruct (Hout' eq_refl) as [out' Hcp'].
  assert (Htr3' : trace w3 = trace w ++ [EvWrite copied t;
                    EvExec (argv rt (volume_command workingDir cur_nifii));
                    EvExec (argv rt (TR_command workingDir cur_nifii))])
    by (rewrite Htr3, Htr2', <- app_assoc; reflexivity).
  assert (Hc3' : cwd w3 = cwd w) by congruence.
  apply wp_bind. unfold float_of_stdout. rewrite Hcp'. apply wp_lift.
  destruct (py_float rt out') as [TR_duration|e]; [| now apply (Hstop 3 w3 _ Htr3')].
  apply wp_bind, wp_lift.
  destruct (re_sub rt FEAT.pat_tr _ bd4) as [bd5|e] eqn:Hbd5;
    [| now apply (Hstop 3 w3 _ Htr3')].
  wp_step write_file_spec. intros [[]|e] w4 [Hc4 H4].
  2:{ subst w4. now apply (Hstop 3 w3 _ Htr3'). }
  destruct H4 as (Htr4 & _). apply wp_ret.
  split; [congruence |]. eexists _, copied, t.
  split; [rewrite Htr4, Htr3', <- app_assoc; reflexivity |].
  split; [exact Hin |]. split; [auto |].
  exists bd3, bd4, bd5, TR_duration. split; [exact Hbd4 |]. split; [exact Hbd5 |].
  unfold resolve. rewrite Hc3'. reflexivity.
Qed.

Lemma process_run_full (rt : runtime) (workingDir inputFilename : string) (w : world) :
  exists evs,
    trace (snd (FEAT.process_run rt workingDir inputFilename w)) = trace w ++ evs
    /\ FEAT_begun_run rt workingDir (cwd w) inputFilename evs
    /\ (fst (FEAT.process_run rt workingDir inputFilename w) = Ok tt ->
        (is_abs workingDir = true ->
         cwd (snd (FEAT.process_run rt workingDir inputFilename w)) = workingDir)
        /\ FEAT_complete_run rt workingDir (cwd w) inputFilename evs).
Proof.
  change (wp (FEAT.process_run rt workingDir inputFilename) w (fun r w' =>
            exists evs,
              trace w' = trace w ++ evs
              /\ FEAT_begun_run rt workingDir (cwd w) inputFilename evs
              /\ (r = Ok tt ->
                  (is_abs workingDir = true -> cwd w' = workingDir)
                  /\ FEAT_complete_run rt workingDir (cwd w) inputFilename evs))).
  unfold FEAT.process_run, FEAT_begun_run, FEAT_complete_run, FEAT_run_events. cbv zeta.
  set (cur_nifii := take 2 inputFilename).
  wp_step makedirs_spec. intros [[]|e] w0 (Htr0 & Hc0 & Hf0).
  2:{ exists []. split; [rewrite Htr0; apply trace_nil |]. split; [| discriminate].
      exists (path_join (cwd w) (FEAT.block_design_path workingDir cur_nifii)),
        EmptyString, EmptyString, 0%Z.
      split; [apply list_elem_of_here | apply began_nil]. }
  wp_step FEAT_create_fsf_full.
  intros [n|e] w1 (Hc1 & evs & copied & t & Htr1 & Hin & Ht & H1).
  2:{ exists evs. split; [congruence |]. split; [| discriminate].
      exists copied, t, EmptyString, 0%Z. rewrite <- Hc0. split; [exact Hin |].
      etrans; [exact H1 | now apply prefix_app_r]. }
  destruct H1 as (design & design' & doc & TR_duration & Hd' & Hdoc & ->).
  unfold resolve in Htr1. rewrite Hc0 in Htr1, Hin.
  wp_step run_command_spec. intros [cp|e] w2 [Hc2 H2].
  2:{ destruct H2 as [H2|[H2 _]]; eexists; (split; [| split; [| discriminate]]).
      - rewrite H2, Htr1, Htr0. reflexivity.
      - exists copied, t, doc, n. split; [exact Hin | apply (began_take 4)].
      - rewrite H2, Htr1, Htr0, <- !app_assoc. reflexivity.
      - exists copied, t, doc, n. split; [exact Hin | apply (began_take 5)]. }
  destruct H2 as (Htr2 & _).
  eapply wp_mono; [apply FEAT_run_FEAT_spec |]. cbv zeta.
  intros [[]|e] w3 H3.
  - destruct H3 as [Htr3 Hc3]. eexists. split; [| split].
    + rewrite Htr3, Htr2, Htr1, Htr0, <- !app_assoc. reflexivity.
    + exists copied, t, doc, n. split; [exact Hin | apply began_refl].
    + intros _. split; [exact Hc3 |].
      exists copied, t, design, design', doc, n, TR_duration. auto.
  - destruct H3 as [Htr3|Htr3]; eexists; (split; [| split; [| discriminate]]).
    + rewrite Htr3, Htr2, Htr1, Htr0, <- !app_assoc. reflexivity.
    + exists copied, t, doc, n. split; [exact Hin | apply (began_take 5)].
    + rewrite Htr3, Htr2, Htr1, Htr0, <- !app_assoc. reflexivity.
    + exists copied, t, doc, n. split; [exact Hin | apply began_refl].
Qed.

(** A run of the FEAT driver that raises before its design is written
    has got no further than the helpers. *)
Lemma process_run_stopped (rt : runtime) (workingDir inputFilename : string) (w : world) :
  let cur_nifii := take 2 inputFilename in
  (fst (makedirs (FEAT.block_dir workingDir cur_nifii) w) = Ok tt ->
   raised (fst (FEAT.create_fsf rt workingDir cur_nifii
                  (snd (makedirs (FEAT.block_dir workingDir cur_nifii) w))))) ->
  raised (fst (FEAT.process_run rt workingDir inputFilename w))
  /\ exists evs copied t,
       trace (snd (FEAT.process_run rt workingDir inputFilename w)) = trace w ++ evs
       /\ copied ∈ FEAT_copy_targets (cwd w) workingDir cur_nifii
       /\ began evs (FEAT_derive_events rt workingDir cur_nifii copied t)
       /\ (evs <> [] -> files (fs w) !! resolve w (FEAT.template_path workingDir) = Some t).
Proof.
  intros cur_nifii. unfold FEAT.process_run, bind. fold cur_nifii.
  pose proof (makedirs_spec (FEAT.block_dir workingDir cur_nifii) w) as Hm.
  unfold wp in Hm.
  destruct (makedirs (FEAT.block_dir workingDir cur_nifii) w) as [[[]|e] w0];
    cbn [fst snd] in *; destruct Hm as (Htr0 & Hc0 & Hf0); intros Hraise.
  2:{ split; [now exists e |].
      exists [], (path_join (cwd w) (FEAT.block_design_path workingDir cur_nifii)), EmptyString.
      split; [rewrite Htr0; apply trace_nil |]. split; [apply list_elem_of_here |].
      split; [apply began_nil | congruence]. }
  destruct (Hraise eq_refl) as [e He].
  pose proof (FEAT_create_fsf_full rt workingDir cur_nifii w0) as Hf. unfold wp in Hf.
  destruct (FEAT.create_fsf rt workingDir cur_nifii w0) as [[n|e'] w1];
    cbn [fst snd] in *; [discriminate |].
  destruct Hf as (_ & evs & copied & t & Htr1 & Hin & Ht & Hbegan).
  split; [now exists e' |]. exists evs, copied, t.
  split; [congruence |]. split; [now rewrite <- Hc0 |]. split; [exact Hbegan |].
  unfold resolve in *. now rewrite <- Hf0, <- Hc0.
Qed.

(** A helper that exits with a status other than 0 makes [run_command]
    raise. *)
Lemma run_command_fails (rt : runtime) (scommand : string) (capture : bool) (w : world) :
  fails_in rt scommand capture w -> raised (fst (run_command rt scommand capture w)).
Proof.
  intros (sargs & rc & out & fs' & Hs & Hp & Hrc).
  unfold run_command, bind, lift, subprocess_run, ret, raise.
  rewrite Hs, Hp. cbn [returncode].
  destruct (Z.eqb_spec rc 0); [contradiction |]. cbn [negb fst]. now eexists.
Qed.

Lemma run_command_passes (rt : runtime) (scommand : string) (capture : bool) (w : world)
    (sargs : list string) (out : string) (fs1 : fsys) :
  shlex_split rt scommand = Ok sargs ->
  spawn rt sargs capture w = (Ok (0%Z, out), fs1) ->
  run_command rt scommand capture w
  = (Ok (Completed sargs 0 (if capture then Some out else None)), after_process w sargs fs1).
Proof.
  intros Hs Hp. unfold run_command, bind, lift, subprocess_run, ret, raise.
  rewrite Hs, Hp. reflexivity.
Qed.

Lemma create_fsf_helper_fails (rt : runtime) (workingDir cur_nifii : string) (w : world) :
  helper_fails_from rt workingDir cur_nifii
    (snd (copy (FEAT.template_path workingDir)
            (FEAT.block_design_path workingDir cur_nifii) w)) ->
  raised (fst (FEAT.create_fsf rt workingDir cur_nifii w)).
Proof.
  intros Hfail. unfold FEAT.create_fsf.
  unfold bind at 1.
  destruct (copy (FEAT.template_path workingDir)
              (FEAT.block_design_path workingDir cur_nifii) w) as [[[]|e] w1];
    cbn [fst snd] in *; [| now exists e].
  unfold bind at 1.
  pose proof (read_file_spec (FEAT.block_design_path workingDir cur_nifii) w1) as Hr.
  unfold wp in Hr.
  destruct (read_file (FEAT.block_design_path workingDir cur_nifii) w1) as [[bd|e] w2];
    cbn [fst snd] in *; destruct Hr as [-> _]; [| now exists e].
  unfold bind at 1, lift at 1. destruct (re_sub rt _ _ _) as [bd1|e]; [| now exists e].
  unfold bind at 1, lift at 1. destruct (re_sub rt _ _ _) as [bd2|e]; [| now exists e].
  unfold bind at 1, lift at 1. destruct (re_sub rt _ _ _) as [bd3|e]; [| now exists e].
  fold (volume_command workingDir cur_nifii). fold (TR_command workingDir cur_nifii).
  unfold bind at 1.
  destruct Hfail as [Hfail | (sargs & out & fs1 & Hs & Hp & Hfail)].
  - destruct (run_command_fails _ _ _ _ Hfail) as [e He].
    destruct (run_command rt (volume_command workingDir cur_nifii) true w1) as [r w2].
    cbn [fst] in He. subst r. now exists e.
  - rewrite (run_command_passes _ _ _ _ _ _ _ Hs Hp).
    unfold bind at 1, int_of_stdout. cbn [stdout]. unfold lift at 1.
    destruct (py_int rt out) as [n|e]; [| now exists e].
    unfold bind at 1, lift at 1. destruct (re_sub rt _ _ _) as [bd4|e]; [| now exists e].
    unfold bind at 1.
    destruct (run_command_fails _ _ _ _ Hfail) as [e He].
    destruct (run_command rt (TR_command workingDir cur_nifii) true
                (after_process w1 sargs fs1)) as [r w2].
    cbn [fst] in He. subst r. now exists e.
Qed.

End RunFacts.

(** ** The claims *)

Section Claims.
Import PyStr Py Re Common Props Runs Demo Demo3.
Import StrFacts ReFacts FmtFacts LinesFacts PyFacts DriverFacts MainFacts RunFacts.

(** C1, as the code has it.  The step that runs the tool restores the
    working directory when it ends normally.  When the tool exits with a
    status other than 0, the exception leaves the step with the working
    directory still the directory of the run. *)
Theorem C1_cwd_restored_on_success_only (rt : runtime)
    (runDir workingDir cur_nifii : string) (w : world) :
  is_abs (cwd w) = true ->
  (fst (GLM1.run_FEAT rt runDir w) = Ok tt ->
   cwd (snd (GLM1.run_FEAT rt runDir w)) = cwd w)
  /\ (forall sargs rc out fs',
        resolve w runDir ∈ dirs (fs w) ->
        shlex_split rt (feat_command (GLM1.blockGLMPath runDir)) = Ok sargs ->
        spawn rt sargs true (World (resolve w runDir) (fs w) (trace w))
        = (Ok (rc, out), fs') ->
        rc <> 0%Z ->
        raised (fst (GLM1.run_FEAT rt runDir w))
        /\ cwd (snd (GLM1.run_FEAT rt runDir w)) = resolve w runDir)
  /\ (workingDir = cwd w ->
      fst (FEAT.run_FEAT rt workingDir cur_nifii w) = Ok tt ->
      cwd (snd (FEAT.run_FEAT rt workingDir cur_nifii w)) = cwd w)
  /\ (forall sargs rc out fs',
        resolve w (FEAT.block_dir workingDir cur_nifii) ∈ dirs (fs w) ->
        shlex_split rt (feat_command (FEAT.block_design_path workingDir cur_nifii))
        = Ok sargs ->
        spawn rt sargs false
          (World (resolve w (FEAT.block_dir workingDir cur_nifii)) (fs w) (trace w))
        = (Ok (rc, out), fs') ->
        rc <> 0%Z ->
        raised (fst (FEAT.run_FEAT rt workingDir cur_nifii w))
        /\ cwd (snd (FEAT.run_FEAT rt workingDir cur_nifii w))
           = resolve w (FEAT.block_dir workingDir cur_nifii)).
Proof.
  intros Habs. split; [| split; [| split]].
  - intros Hok. pose proof (GLM1_run_FEAT_spec rt runDir w) as H.
    unfold wp in H. rewrite Hok in H. now apply H.
  - intros sargs rc out fs' Hdir Hsplit Hspawn Hrc.
    unfold GLM1.run_FEAT, run_command, bind, getcwd, chdir, lift, subprocess_run,
      ret, raise.
    cbn [fst snd]. destruct (decide (resolve w runDir ∈ dirs (fs w))); [| contradiction].
    rewrite Hsplit, Hspawn. cbn [returncode].
    destruct (Z.eqb_spec rc 0); [contradiction |].
    cbn [negb fst snd cwd]. split; [now eexists | reflexivity].
  - intros -> Hok. pose proof (FEAT_run_FEAT_spec rt (cwd w) cur_nifii w) as H.
    unfold wp in H. rewrite Hok in H. now apply H.
  - intros sargs rc out fs' Hdir Hsplit Hspawn Hrc.
    unfold FEAT.run_FEAT, run_command, bind, chdir, lift, subprocess_run, ret, raise.
    destruct (decide (resolve w (FEAT.block_dir workingDir cur_nifii) ∈ dirs (fs w)));
      [| contradiction].
    rewrite Hsplit, Hspawn. cbn [returncode].
    destruct (Z.eqb_spec rc 0); [contradiction |].
    cbn [negb fst snd cwd]. split; [now eexists | reflexivity].
Qed.

Lemma C1_witness :
  is_abs (cwd session) = true
  /\ cwd (snd (GLM1.run_FEAT rt_ok "/work/run05" session)) = cwd session
  /\ cwd (snd (GLM1.run_FEAT (rt_with (fails "feat")) "/work/run05" session))
     = "/work/run05".
Proof.
  split; [reflexivity |]. split.
  - refine (proj1 (C1_cwd_restored_on_success_only rt_ok "/work/run05" "/work" "05"
              session eq_refl) _).
    reflexivity.
  - refine (proj2 (proj1 (proj2 (C1_cwd_restored_on_success_only
              (rt_with (fails "feat")) "/work/run05" "/work" "05" session eq_refl))
              ["feat"; "/work/run05/block05_GLM1.fsf"] 1%Z EmptyString (fs session)
              _ eq_refl eq_refl _)).
    + vm_compute. reflexivity.
    + discriminate.
Defined.

(** C1 read to the letter fails: after a tool that exits with status 1
    the working directory is the directory of the run. *)
Lemma C1_counterexample : ~ restores_cwd_always.
Proof.
  intros H. specialize (H (rt_with (fails "feat")) "/work/run05" session eq_refl).
  vm_compute in H. discriminate.
Qed.

(** C2, as the code has it.  The manifest gives one run for each of its
    lines, in the order of the file, blank lines included: the folders of
    [session_GLM_CLI] are the lines mapped to [run] and the first two
    characters of the line (fewer when the line is shorter; the line feed
    counts), and the lines are the file cut after each line feed. *)
Theorem C2_one_run_per_line (workingDir content : string) :
  GLM1.input_folders workingDir (file_lines content)
  = map (fun line => path_join workingDir ("run" +:+ take 2 line)) (file_lines content)
  /\ List.length (GLM1.input_folders workingDir (file_lines content))
     = List.length (file_lines content)
  /\ concat_lines (file_lines content) = content
  /\ Forall (fun line => exists body, line_of body line) (file_lines content).
Proof.
  split; [apply input_folders_map |]. split; [| split].
  - rewrite input_folders_map. apply length_map.
  - apply concat_file_lines.
  - apply file_lines_shape.
Qed.

(** C2 read to the letter fails on a manifest with an empty line between
    two runs: the empty line gives a third run. *)
Lemma C2_counterexample : ~ one_run_per_non_blank_line.
Proof.
  intros H. specialize (H "/work" manifest_with_blank).
  vm_compute in H. discriminate.
Qed.

(** The run that the empty line gives. *)
Example C2_blank_line_run :
  GLM1.input_folders "/work" (file_lines manifest_with_blank)
  = ["/work/run05"; "/work/run" +:+ String nl EmptyString; "/work/run12"].
Proof. reflexivity. Qed.

(** C3. A template with a placeholder for which [params] has no key makes
    [fill_in_template] raise; [create_fsf] then writes nothing and leaves
    the world as it was; and a run of [session_GLM] whose template asks for
    a name that the run does not enter into [params] ends with an
    exception without having written a file. *)
Theorem C3_missing_parameter (rt : runtime) (template name : string) :
  In name (Fmt.placeholders template) ->
  (forall params,
      params !! name = None -> raised (GLM1.fill_in_template rt template params))
  /\ (forall params runDir w,
        params !! name = None ->
        raised (fst (GLM1.create_fsf rt template runDir params w))
        /\ snd (GLM1.create_fsf rt template runDir params w) = w)
  /\ (forall workingDir runDir w,
        (forall n, GLM1.run_params workingDir runDir n !! name = None) ->
        raised (fst (GLM1.session_GLM_run rt workingDir template runDir w))
        /\ exists evs,
             trace (snd (GLM1.session_GLM_run rt workingDir template runDir w))
             = trace w ++ evs
             /\ no_write evs).
Proof.
  intros Hin.
  assert (Hfill : forall params,
             params !! name = None -> raised (GLM1.fill_in_template rt template params)).
  { intros params Hnone. now apply (format_missing rt template params name). }
  split; [exact Hfill |]. split.
  - intros params runDir w Hnone. destruct (Hfill params Hnone) as [e He].
    unfold GLM1.create_fsf, bind, lift. rewrite He. cbn [fst snd].
    split; [now exists e | reflexivity].
  - intros workingDir runDir w Hnone.
    change (wp (GLM1.session_GLM_run rt workingDir template runDir) w (fun r w' =>
              raised r /\ exists evs, trace w' = trace w ++ evs /\ no_write evs)).
    unfold GLM1.session_GLM_run.
    wp_step set_parameters_spec. intros [params|e] w1 [_ H1]; cbv zeta in H1.
    + destruct H1 as (Htr1 & n & ->).
      destruct (Hfill _ (Hnone n)) as [e He].
      apply wp_bind. unfold wp, GLM1.create_fsf, bind, lift. rewrite He. cbn [fst snd].
      split; [now exists e |]. eexists. split; [exact Htr1 | apply no_write_exec].
    + split; [now exists e |]. destruct H1 as [H1|H1].
      * exists []. split; [rewrite H1; apply trace_nil | apply no_write_nil].
      * eexists. split; [exact H1 | apply no_write_exec].
Qed.

Lemma C3_witness :
  In "TR_duration" (Fmt.placeholders GLM1_template_with_TR)
  /\ raised (fst (GLM1.session_GLM_run rt_ok "/work" GLM1_template_with_TR
                    "/work/run05" session))
  /\ exists evs,
       trace (snd (GLM1.session_GLM_run rt_ok "/work" GLM1_template_with_TR
                     "/work/run05" session))
       = trace session ++ evs
       /\ no_write evs.
Proof.
  assert (Hin : In "TR_duration" (Fmt.placeholders GLM1_template_with_TR))
    by (vm_compute; auto).
  split; [exact Hin |].
  refine (proj2 (proj2 (C3_missing_parameter rt_ok GLM1_template_with_TR "TR_duration"
            Hin)) "/work" "/work/run05" session _).
  intros n. vm_compute. reflexivity.
Defined.

(** C4, as the code has it.  When one of the two helpers of a run of the
    FEAT driver exits with a status other than 0 in that run, the run ends
    with an exception and the loop over the manifest ends with it: nothing
    of a later run happens.  Of the events of a run only the first ones
    have then taken place, which are the copy of the template to the design
    file and the helpers: the rewritten design is not written and the tool
    is not started.  The copy holds the text of the template file. *)
Theorem C4_failed_helper_aborts (rt : runtime) (workingDir inputFilename : string)
    (rest : list string) (w : world) :
  FEAT_helper_fails rt workingDir (take 2 inputFilename) w ->
  raised (fst (FEAT.process_run rt workingDir inputFilename w))
  /\ for_each (inputFilename :: rest) (FEAT.process_run rt workingDir) w
     = FEAT.process_run rt workingDir inputFilename w
  /\ exists evs copied t,
       trace (snd (FEAT.process_run rt workingDir inputFilename w)) = trace w ++ evs
       /\ copied ∈ FEAT_copy_targets (cwd w) workingDir (take 2 inputFilename)
       /\ began evs (FEAT_derive_events rt workingDir (take 2 inputFilename) copied t)
       /\ (evs <> [] ->
           files (fs w) !! resolve w (FEAT.template_path workingDir) = Some t).
Proof.
  intros Hfail.
  destruct (process_run_stopped rt workingDir inputFilename w) as [[e He] Hevs].
  { intros _. apply create_fsf_helper_fails. exact Hfail. }
  split; [now exists e |]. split; [| exact Hevs].
  apply for_each_raise. now rewrite He.
Qed.

Lemma C4_witness :
  FEAT_helper_fails (rt_with (fails "getNumVolume.sh")) "/work" (take 2 "05_run.nii") session
  /\ FEAT_helper_fails (rt_with (fails "getTRDuration.sh")) "/work" (take 2 "05_run.nii")
       session
  /\ raised (fst (FEAT.process_run (rt_with (fails "getNumVolume.sh")) "/work"
                    "05_run.nii" session))
  /\ for_each ["05_run.nii"; "12_run.nii"]
       (FEAT.process_run (rt_with (fails "getNumVolume.sh")) "/work") session
     = FEAT.process_run (rt_with (fails "getNumVolume.sh")) "/work" "05_run.nii" session
  /\ raised (fst (FEAT.process_run (rt_with (fails "getTRDuration.sh")) "/work"
                    "05_run.nii" session)).
Proof.
  assert (H1 : FEAT_helper_fails (rt_with (fails "getNumVolume.sh")) "/work"
                 (take 2 "05_run.nii") session).
  { left. exists ["sh"; "getNumVolume.sh"; "/work/05.nii.gz"], 1%Z, "120",
      (fs (FEAT_helper_world "/work" "05" session)).
    split; [reflexivity |]. split; [vm_compute; reflexivity | discriminate]. }
  assert (H2 : FEAT_helper_fails (rt_with (fails "getTRDuration.sh")) "/work"
                 (take 2 "05_run.nii") session).
  { right. exists ["sh"; "getNumVolume.sh"; "/work/05.nii.gz"], "120",
      (fs (FEAT_helper_world "/work" "05" session)).
    split; [reflexivity |]. split; [vm_compute; reflexivity |].
    exists ["sh"; "getTRDuration.sh"; "/work/05.nii.gz"], 1%Z, "2.000000",
      (fs (FEAT_helper_world "/work" "05" session)).
    split; [reflexivity |]. split; [vm_compute; reflexivity | discriminate]. }
  split; [exact H1 |]. split; [exact H2 |].
  destruct (C4_failed_helper_aborts (rt_with (fails "getNumVolume.sh")) "/work"
              "05_run.nii" ["12_run.nii"] session H1) as (Hraised & Hloop & _).
  destruct (C4_failed_helper_aborts (rt_with (fails "getTRDuration.sh")) "/work"
              "05_run.nii" [] session H2) as (Hraised' & _).
  split; [exact Hraised |]. split; [exact Hloop | exact Hraised'].
Defined.

(** C4 read to the letter fails: when the helper that counts the volumes
    exits with status 1, the design file of the run has been written all
    the same, as a copy of the template. *)
Lemma C4_counterexample : ~ failed_helper_writes_nothing.
Proof.
  intros H.
  refine (H (rt_with (fails "getNumVolume.sh")) "/work" "05_run.nii" session
            [EvWrite "/work/run05/block05_design.fsf" design_template;
             EvExec ["sh"; "getNumVolume.sh"; "/work/05.nii.gz"]]
            design_template _ _ _).
  - left. exists ["sh"; "getNumVolume.sh"; "/work/05.nii.gz"], 1%Z, "120",
      (fs (FEAT_helper_world "/work" "05" session)).
    split; [reflexivity |]. split; [vm_compute; reflexivity | discriminate].
  - vm_compute. reflexivity.
  - constructor.
Qed.

(** C5, as the code has it.  [run_command] raises in three cases: when
    [shlex.split] refuses the command line, with the exception of
    [shlex.split] and nothing done; when the process cannot be started,
    with the exception of [subprocess.run]; and when the process has run
    and exited with a status other than 0, with a [RuntimeError] whose
    message shows that status.  With status 0 it returns the
    [CompletedProcess] (holding the captured output when capture was asked
    for). *)
Theorem C5_run_command_exit_status (rt : runtime) (scommand : string) (capture : bool)
    (w : world) :
  (forall e,
      shlex_split rt scommand = Raise e ->
      run_command rt scommand capture w = (Raise e, w))
  /\ (forall sargs e fs',
        shlex_split rt scommand = Ok sargs ->
        spawn rt sargs capture w = (Raise e, fs') ->
        run_command rt scommand capture w = (Raise e, World (cwd w) fs' (trace w)))
  /\ (forall sargs rc out fs',
        shlex_split rt scommand = Ok sargs ->
        spawn rt sargs capture w = (Ok (rc, out), fs') ->
        let process_results := Completed sargs rc (if capture then Some out else None) in
        let w' := World (cwd w) fs' (trace w ++ [EvExec sargs]) in
        (rc = 0%Z -> run_command rt scommand capture w = (Ok process_results, w'))
        /\ (rc <> 0%Z ->
            exists pre post,
              run_command rt scommand capture w
              = (Raise (RuntimeError (pre +:+ "returncode=" +:+ pretty rc +:+ post)), w'))
        /\ (is_ok (fst (run_command rt scommand capture w)) = true <-> rc = 0%Z)).
Proof.
  unfold run_command, bind, lift, subprocess_run, ret, raise.
  split; [| split].
  - intros e ->. reflexivity.
  - intros sargs e fs' -> ->. reflexivity.
  - intros sargs rc out fs' -> ->. cbn [returncode].
    destruct (Z.eqb_spec rc 0) as [->|Hrc]; cbn [negb fst].
    + split; [reflexivity |]. split; [congruence | tauto].
    + split; [congruence |]. split; [| split; [discriminate | congruence]].
      intros _.
      exists ("Received non-zero return code: CompletedProcess(args="
                +:+ repr_args rt sargs +:+ ", ").
      eexists. unfold repr_completed. cbn [args returncode stdout].
      rewrite !sapp_assoc. reflexivity.
Qed.

Lemma C5_witness :
  (exists pre post,
     run_command (rt_with (fails "feat")) "feat /work/run05/block05_GLM1.fsf" true session
     = (Raise (RuntimeError (pre +:+ "returncode=" +:+ pretty 1%Z +:+ post)),
        World "/work" (fs session) [EvExec ["feat"; "/work/run05/block05_GLM1.fsf"]]))
  /\ run_command (rt_without "feat") "feat /work/run05/block05_GLM1.fsf" true session
     = (Raise (OSError "FileNotFoundError" "feat"), session).
Proof.
  split.
  - refine (proj1 (proj2 (proj2 (proj2 (C5_run_command_exit_status (rt_with (fails "feat"))
              "feat /work/run05/block05_GLM1.fsf" true session))
              ["feat"; "/work/run05/block05_GLM1.fsf"] 1%Z EmptyString (fs session)
              eq_refl eq_refl)) _).
    discriminate.
  - exact (proj1 (proj2 (C5_run_command_exit_status (rt_without "feat")
              "feat /work/run05/block05_GLM1.fsf" true session))
              ["feat"; "/work/run05/block05_GLM1.fsf"]
              (OSError "FileNotFoundError" "feat") (fs session) eq_refl eq_refl).
Defined.

(** C5 read to the letter fails: where the program is not installed,
    [run_command] raises the [FileNotFoundError] of [subprocess.run],
    and no process has exited with any status. *)
Lemma C5_counterexample : ~ raises_on_nonzero_status_only.
Proof.
  intros H.
  destruct (H (rt_without "feat") "feat /work/run05/block05_GLM1.fsf" true session
              (OSError "FileNotFoundError" "feat") eq_refl)
    as (sargs & rc & out & fs' & Hs & Hp & _).
  injection Hs as <-. vm_compute in Hp. discriminate.
Qed.

(** C6, as the code has it.  The events of a batch are those of its
    runs, one run after the other in the order of the list or of the
    manifest; every run that went through has given all the events of a
    complete run, and a batch that stops does so in a run of which the
    first events have taken place.  For [session_GLM] a complete run is the
    helper, the writing of the design file, the tool.  For the FEAT driver
    it is the copy of the template to the design file, the two helpers, the
    writing of the rewritten design file, the slice timings, the tool: the
    design file is written a first time before the helpers run. *)
Theorem C6_design_written_before_tool (rt : runtime) (w : world) :
  is_abs (cwd w) = true ->
  (forall workingDir T inputFolders,
      files (fs w) !! resolve w (path_join workingDir "GLM1_template.fsf") = Some T ->
      exists evs,
        trace (snd (GLM1.session_GLM rt workingDir inputFolders w)) = trace w ++ evs
        /\ runs_in_order (GLM1_complete_run rt workingDir T (cwd w))
             (GLM1_begun_run rt (cwd w)) inputFolders
             (is_ok (fst (GLM1.session_GLM rt workingDir inputFolders w))) evs)
  /\ (forall workingDir w0 inputs,
        FEAT.setup rt w = (Ok workingDir, w0) ->
        files (fs w0) !! resolve w0 (path_join workingDir "to_process_main.txt")
        = Some inputs ->
        exists evs,
          trace (snd (FEAT.main rt w)) = trace w0 ++ evs
          /\ runs_in_order (FEAT_complete_run rt (cwd w) (cwd w))
               (FEAT_begun_run rt (cwd w) (cwd w)) (file_lines inputs)
               (is_ok (fst (FEAT.main rt w))) evs).
Proof.
  intros Habs. split.
  - intros workingDir T inputFolders HT.
    unfold GLM1.session_GLM, bind, read_file. rewrite HT.
    apply (for_each_runs (GLM1.session_GLM_run rt workingDir T)
             (fun w0 => cwd w0 = cwd w)); [| reflexivity].
    intros runDir w0 Hc.
    destruct (session_GLM_run_full rt workingDir T runDir w0)
      as (evs & Htr & Hbegun & Hcomplete).
    rewrite Hc in Hbegun, Hcomplete.
    exists evs. split; [exact Htr |]. split; [exact Hbegun |].
    intros Hok. destruct (Hcomplete Hok) as [Hcwd Hrun]. auto.
  - intros workingDir w0 inputs Hsetup Hinputs.
    pose proof (setup_spec rt w) as Hs. unfold wp in Hs. rewrite Hsetup in Hs.
    cbn [fst snd] in Hs. destruct Hs as (Hc0 & -> & _).
    unfold FEAT.main, bind. rewrite Hsetup. unfold read_file. rewrite Hinputs.
    apply (for_each_runs (FEAT.process_run rt (cwd w))
             (fun w1 => cwd w1 = cwd w)); [| exact Hc0].
    intros line w1 Hc.
    destruct (process_run_full rt (cwd w) line w1) as (evs & Htr & Hbegun & Hcomplete).
    rewrite Hc in Hbegun, Hcomplete.
    exists evs. split; [exact Htr |]. split; [exact Hbegun |].
    intros Hok. destruct (Hcomplete Hok) as [Hcwd Hrun]. auto.
Qed.

Lemma C6_witness :
  is_abs (cwd session) = true
  /\ (exists evs,
        trace (snd (GLM1.session_GLM rt_ok "/work" ["/work/run05"; "/work/run12"] session))
        = trace session ++ evs
        /\ runs_in_order (GLM1_complete_run rt_ok "/work" GLM1_template (cwd session))
             (GLM1_begun_run rt_ok (cwd session)) ["/work/run05"; "/work/run12"] true evs)
  /\ (exists evs,
        trace (snd (FEAT.main rt_ok session))
        = trace (snd (FEAT.setup rt_ok session)) ++ evs
        /\ runs_in_order (FEAT_complete_run rt_ok (cwd session) (cwd session))
             (FEAT_begun_run rt_ok (cwd session) (cwd session)) (file_lines manifest)
             true evs).
Proof.
  split; [reflexivity |].
  pose proof (C6_design_written_before_tool rt_ok session eq_refl) as [HG HF].
  assert (HokG : is_ok (fst (GLM1.session_GLM rt_ok "/work" ["/work/run05"; "/work/run12"]
                               session)) = true) by (vm_compute; reflexivity).
  assert (HokF : is_ok (fst (FEAT.main rt_ok session)) = true) by (vm_compute; reflexivity).
  split.
  - rewrite <- HokG. apply (HG "/work" GLM1_template). vm_compute. reflexivity.
  - rewrite <- HokF. apply (HF "/work" (snd (FEAT.setup rt_ok session)) manifest).
    + vm_compute. reflexivity.
    + vm_compute. reflexivity.
Defined.

(** C6 read to the letter fails for the FEAT driver: the first thing a
    run does to the path of its design file is to copy the template there,
    before any helper has been started. *)
Lemma C6_counterexample : ~ derives_before_writing.
Proof.
  intros H.
  destruct (H rt_ok "/work" "05_run.nii" session [] design_template
              (List.tl (trace (snd (FEAT.process_run rt_ok "/work" "05_run.nii" session)))))
    as [sargs Hin].
  - vm_compute. reflexivity.
  - now apply elem_of_nil in Hin.
Qed.

(** C7, as the code has it.  A rewriting rule whose pattern matches
    nowhere in the template leaves the template as it is when [re] accepts
    the replacement text; a replacement text that [re] refuses makes the
    rule raise the error of [re], although nothing matches. *)
Theorem C7_unmatched_rule_is_noop (rt : runtime) (p : pattern) (repl text : string) :
  ~ occurs_in p text ->
  (forall items,
      compile_template rt repl = Ok items ->
      sub_from p items 0 text = text /\ re_sub rt p repl text = Ok text)
  /\ (forall e,
        compile_template rt repl = Raise e -> re_sub rt p repl text = Raise e).
Proof.
  intros Hno. unfold re_sub. split.
  - intros items ->. now rewrite sub_from_no_match.
  - intros e ->. reflexivity.
Qed.

Lemma C7_witness :
  re_sub rt_ok FEAT.pat_outputdir (FEAT.repl_quoted "/work/run05/05-preprocess.feat")
    design_template = Ok design_template
  /\ re_sub rt_re FEAT.pat_outputdir (FEAT.repl_quoted outputdir_with_backslash)
       design_template = Raise (ReError "bad escape \m").
Proof.
  assert (Hno : ~ occurs_in FEAT.pat_outputdir design_template).
  { intros Hocc.
    apply (search_complete FEAT.pat_outputdir design_template eq_refl) in Hocc.
    apply Hocc. reflexivity. }
  split.
  - exact (proj2 (proj1 (C7_unmatched_rule_is_noop rt_ok FEAT.pat_outputdir
             (FEAT.repl_quoted "/work/run05/05-preprocess.feat") design_template Hno)
             [RGroup 1; RLit ("/work/run05/05-preprocess.feat" +:+ dquote)] eq_refl)).
  - exact (proj2 (C7_unmatched_rule_is_noop rt_re FEAT.pat_outputdir
             (FEAT.repl_quoted outputdir_with_backslash) design_template Hno)
             (ReError "bad escape \m") eq_refl).
Defined.

(** C7 read to the letter fails: for a run folder whose path holds a
    backslash followed by a letter, the rule for the output directory
    raises on a template without that line. *)
Lemma C7_counterexample : ~ unmatched_rule_is_silent.
Proof.
  intros H.
  assert (Hno : ~ occurs_in FEAT.pat_outputdir design_template).
  { intros Hocc.
    apply (search_complete FEAT.pat_outputdir design_template eq_refl) in Hocc.
    apply Hocc. reflexivity. }
  specialize (H rt_re FEAT.pat_outputdir (FEAT.repl_quoted outputdir_with_backslash)
                design_template Hno).
  vm_compute in H. discriminate.
Qed.

(** C8, as the code has it.  Where the key occurs once in the template,
    on a line that ends after the value and the tail, and the replacement
    text is a reference to group 1 followed by the new value and the tail,
    the rule puts the new value in the place of the old one and leaves the
    text around it as it was; and looking the key up in the result gives
    the new value back when that value holds no line feed. *)
Theorem C8_rewrite_replaces_value (rt : runtime) (p : pattern)
    (pre old new post repl : string) :
  compile_template rt repl = Ok [RGroup 1; RLit (new +:+ tail p)] ->
  first_at p pre ->
  single_line old = true -> single_line (tail p) = true ->
  at_line_end post -> ~ contains (key p) post ->
  re_sub rt p repl (pre +:+ key p +:+ old +:+ tail p +:+ post)
  = Ok (pre +:+ key p +:+ new +:+ tail p +:+ post)
  /\ (single_line new = true ->
      re_search_value p (pre +:+ key p +:+ new +:+ tail p +:+ post) = Some new).
Proof.
  intros Hc Hfirst Hold Htail Hpost Hno. split.
  - unfold re_sub. rewrite Hc. f_equal.
    rewrite sub_from_before by exact Hfirst.
    rewrite sub_from_target by assumption.
    cbn [expand expand_item]. now rewrite sapp_empty_r, !sapp_assoc.
  - intros Hnew. rewrite search_before by exact Hfirst.
    pose proof (match_here_target p new post Hnew Htail Hpost) as Hm.
    destruct (key p +:+ new +:+ tail p +:+ post) as [|c r] eqn:E;
      cbn [re_search_value]; now rewrite Hm.
Qed.

Lemma C8_witness :
  re_sub rt_ok FEAT.pat_npts (FEAT.repl_number "120") design_template
  = Ok ("set fmri(tr) 1.0" +:+ String nl
          ("set fmri(npts) 120" +:+ String nl
          ("set feat_files(1) " +:+ dquote +:+ "old" +:+ dquote +:+ String nl
          ("set highres_files(1) " +:+ dquote +:+ "old" +:+ dquote +:+ String nl EmptyString))))
  /\ re_search_value FEAT.pat_npts
       ("set fmri(tr) 1.0" +:+ String nl
          ("set fmri(npts) 120" +:+ String nl
          ("set feat_files(1) " +:+ dquote +:+ "old" +:+ dquote +:+ String nl
          ("set highres_files(1) " +:+ dquote +:+ "old" +:+ dquote +:+ String nl EmptyString))))
     = Some "120".
Proof.
  refine ((fun H => conj (proj1 H) (proj2 H eq_refl))
           (C8_rewrite_replaces_value rt_ok FEAT.pat_npts
            ("set fmri(tr) 1.0" +:+ String nl EmptyString) "1" "120"
            (String nl
              ("set feat_files(1) " +:+ dquote +:+ "old" +:+ dquote +:+ String nl
              ("set highres_files(1) " +:+ dquote +:+ "old" +:+ dquote +:+ String nl EmptyString)))
            (FEAT.repl_number "120")
            eq_refl _ eq_refl eq_refl _ _)).
  - apply first_at_check. reflexivity.
  - right. eexists. reflexivity.
  - apply contains_b_false. reflexivity.
Defined.

(** C8 read to the letter fails on a design with two lines for the
    volume count: the rule rewrites the second line as well. *)
Lemma C8_counterexample : ~ rewrites_target_line_only.
Proof.
  intros H.
  specialize (H rt_ok FEAT.pat_npts EmptyString "1" "120"
                (String nl ("set fmri(npts) 2" +:+ String nl EmptyString))
                (FEAT.repl_number "120") eq_refl).
  assert (Hfirst : first_at FEAT.pat_npts EmptyString)
    by (apply first_at_check; reflexivity).
  specialize (H Hfirst eq_refl (or_intror (ex_intro _ _ eq_refl))).
  vm_compute in H. discriminate.
Qed.

(** Two more ways in which a rule goes beyond the value.  The greedy loop
    runs to the last quote of the line, so text behind the closing quote
    of the path is lost with it; and [re] reads a backslash in the new
    value as an escape, here a line feed, after which the value is not
    found again. *)
Example C8_beyond_the_value :
  re_sub rt_ok FEAT.pat_feat_files (FEAT.repl_quoted "/work/05")
    ("set feat_files(1) " +:+ dquote +:+ "old" +:+ dquote
       +:+ " ;# " +:+ dquote +:+ "note" +:+ dquote)
  = Ok ("set feat_files(1) " +:+ dquote +:+ "/work/05" +:+ dquote)
  /\ re_sub rt_re FEAT.pat_feat_files (FEAT.repl_quoted "/data\new/05")
       ("set feat_files(1) " +:+ dquote +:+ "old" +:+ dquote +:+ String nl EmptyString)
     = Ok ("set feat_files(1) " +:+ dquote +:+ "/data" +:+ String nl
             ("ew/05" +:+ dquote +:+ String nl EmptyString))
  /\ re_search_value FEAT.pat_feat_files
       ("set feat_files(1) " +:+ dquote +:+ "/data" +:+ String nl
          ("ew/05" +:+ dquote +:+ String nl EmptyString))
     = None.
Proof. repeat split; reflexivity. Qed.

(** C9. Materializing a template with the same [params] gives the same
    document: whatever the worlds in which [create_fsf] runs, the design
    file holds the one document [fill_in_template] computes, and running
    it again in the world it left changes no file. *)
Theorem C9_materialization_is_stable (rt : runtime) (template runDir : string)
    (params : gmap string value) (w1 w2 : world) :
  fst (GLM1.create_fsf rt template runDir params w1) = Ok tt ->
  fst (GLM1.create_fsf rt template runDir params w2) = Ok tt ->
  exists doc,
    GLM1.fill_in_template rt template params = Ok doc
    /\ files (fs (snd (GLM1.create_fsf rt template runDir params w1)))
         !! resolve w1 (GLM1.blockGLMPath runDir) = Some doc
    /\ files (fs (snd (GLM1.create_fsf rt template runDir params w2)))
         !! resolve w2 (GLM1.blockGLMPath runDir) = Some doc
    /\ fst (GLM1.create_fsf rt template runDir params
              (snd (GLM1.create_fsf rt template runDir params w1))) = Ok tt
    /\ fs (snd (GLM1.create_fsf rt template runDir params
                  (snd (GLM1.create_fsf rt template runDir params w1))))
       = fs (snd (GLM1.create_fsf rt template runDir params w1)).
Proof.
  unfold GLM1.create_fsf, bind, lift.
  destruct (GLM1.fill_in_template rt template params) as [doc|e]; [| discriminate].
  unfold write_file.
  set (q1 := resolve w1 (GLM1.blockGLMPath runDir)).
  set (q2 := resolve w2 (GLM1.blockGLMPath runDir)).
  destruct (decide (q1 ∈ dirs (fs w1))) as [|Hq1]; [discriminate |].
  destruct (decide (q2 ∈ dirs (fs w2))) as [|Hq2]; [discriminate |].
  destruct (_ || _); [| discriminate].
  destruct (_ || _); [| discriminate].
  intros _ _. exists doc. cbn [fst snd fs files dirs cwd].
  split; [reflexivity |]. split; [apply lookup_insert_eq |].
  split; [apply lookup_insert_eq |].
  unfold resolve. cbn [cwd]. fold (resolve w1 (GLM1.blockGLMPath runDir)). fold q1.
  destruct (decide (q1 ∈ dirs (fs w1))); [contradiction |].
  rewrite lookup_insert_eq.
  rewrite (bool_decide_eq_true_2 (is_Some (Some doc))) by eauto.
  cbn [orb fst snd fs files dirs]. split; [reflexivity |].
  now rewrite insert_insert_eq.
Qed.

Lemma C9_witness :
  exists doc,
    GLM1.fill_in_template rt_ok GLM1_template (GLM1.run_params "/work" "/work/run05" 120)
    = Ok doc
    /\ files (fs (snd (GLM1.create_fsf rt_ok GLM1_template "/work/run05"
                         (GLM1.run_params "/work" "/work/run05" 120) session)))
         !! "/work/run05/block05_GLM1.fsf" = Some doc.
Proof.
  destruct (C9_materialization_is_stable rt_ok GLM1_template "/work/run05"
              (GLM1.run_params "/work" "/work/run05" 120) session session
              eq_refl eq_refl) as (doc & Hdoc & Hfile & _).
  exists doc. split; [exact Hdoc | exact Hfile].
Defined.



(** The template file before and after the set-up of the session. *)
Example C10_template_changed :
  files (fs session) !! "/work/design_template_main.fsf" = Some design_template
  /\ files (fs (snd (FEAT.setup rt_ok session))) !! "/work/design_template_main.fsf"
     = Some ("set fmri(tr) 1.0" +:+ String nl
               ("set fmri(npts) 1" +:+ String nl
               ("set feat_files(1) " +:+ dquote +:+ "old" +:+ dquote +:+ String nl
               ("set highres_files(1) " +:+ dquote +:+ "/data/PD/final_structural"
                  +:+ dquote +:+ String nl EmptyString)))).
Proof. split; reflexivity. Qed.

End Claims.

(* ===================================================================== *)
(** * Part III: further properties of the scripts                         *)
(* ===================================================================== *)

(** ** Named placeholders, continued *)

Module FmtMore.
Import PyStr Py Fmt Props MoreProps StrFacts FmtFacts.

Lemma render_chars (rt : runtime) (params : gmap string value) (a : string)
    (ps : list piece) :
  render rt params (chars a ++ ps)
  = match render rt params ps with
    | Ok s => Ok (a +:+ s)
    | Raise e => Raise e
    end.
Proof.
  induction a as [|c a IH]; cbn [chars app render].
  - now destruct (render rt params ps).
  - rewrite IH. now destruct (render rt params ps).
Qed.

Lemma scan_text (a rest : string) :
  brace_free a = true ->
  scan SText (a +:+ rest)
  = (chars a ++ fst (scan SText rest), snd (scan SText rest)).
Proof.
  induction a as [|c a IH]; intros Hb; cbn [String.append chars app].
  - now destruct (scan SText rest).
  - cbn [brace_free] in Hb. apply andb_prop in Hb as [Hc Hb].
    unfold is_brace in Hc. apply negb_true_iff, orb_false_iff in Hc as [Hc1 Hc2].
    cbn [scan]. rewrite Hc1, Hc2, (IH Hb). reflexivity.
Qed.

Lemma name_char_spec (c : ascii) :
  name_char c = true ->
  Ascii.eqb c "{" = false /\ Ascii.eqb c "}" = false /\ Ascii.eqb c "[" = false
  /\ Ascii.eqb c "." = false /\ Ascii.eqb c ":" = false /\ Ascii.eqb c "!" = false.
Proof.
  unfold name_char, is_brace. intros H. apply negb_true_iff in H.
  destruct (Ascii.eqb c "{"), (Ascii.eqb c "}"), (Ascii.eqb c "["), (Ascii.eqb c "."),
    (Ascii.eqb c ":"), (Ascii.eqb c "!"); try discriminate; auto 10.
Qed.

Lemma name_char_in_name (name : string) (c : ascii)
    (k : pstate -> list piece * option string) :
  name_char c = true -> in_name name c k = k (SName (snoc name c)).
Proof.
  intros H. destruct (name_char_spec c H) as (H1 & H2 & H3 & H4 & H5 & H6).
  unfold in_name. now rewrite H1, H3, H2, H5, H6.
Qed.

Lemma scan_name (acc name rest : string) :
  plain_name name = true ->
  scan (SName acc) (name +:+ String "}" rest)
  = (PField (acc +:+ name) None EmptyString :: fst (scan SText rest),
     snd (scan SText rest)).
Proof.
  revert acc. induction name as [|c name IH]; intros acc Hp; cbn [String.append].
  - cbn [scan]. unfold in_name. cbn. rewrite sapp_empty_r.
    now destruct (scan SText rest).
  - cbn [plain_name] in Hp. apply andb_prop in Hp as [Hc Hp].
    cbn [scan]. rewrite name_char_in_name by exact Hc.
    rewrite (IH _ Hp). unfold snoc. now rewrite sapp_assoc.
Qed.

Lemma scan_field (name rest : string) :
  keyword_name name = true ->
  scan SText (String "{" (name +:+ String "}" rest))
  = (PField name None EmptyString :: fst (scan SText rest), snd (scan SText rest)).
Proof.
  unfold keyword_name. intros H. apply andb_prop in H as [Hp Hk].
  destruct name as [|c name]; [discriminate |].
  cbn [plain_name] in Hp. apply andb_prop in Hp as [Hc Hp].
  cbn [scan String.append].
  assert (Hnb : Ascii.eqb c "{" = false) by apply (name_char_spec c Hc).
  change (Ascii.eqb "{" "{") with true. cbn iota.
  rewrite Hnb, name_char_in_name by exact Hc.
  now rewrite (scan_name _ _ _ Hp).
Qed.

Lemma split_arg_plain (name : string) :
  plain_name name = true -> split_arg name = (name, EmptyString).
Proof.
  induction name as [|c name IH]; intros Hp; [reflexivity |].
  cbn [plain_name] in Hp. apply andb_prop in Hp as [Hc Hp].
  cbn [split_arg]. rewrite (IH Hp).
  destruct (name_char_spec c Hc) as (_ & _ & H3 & H4 & _).
  now rewrite H3, H4.
Qed.

Lemma render_field_keyword (rt : runtime) (params : gmap string value) (name : string) :
  keyword_name name = true ->
  render_field rt params name None EmptyString
  = match params !! name with
    | Some v => Ok (py_str v)
    | None => Raise (KeyError name)
    end.
Proof.
  unfold keyword_name. intros H. apply andb_prop in H as [Hp Hk].
  unfold render_field. rewrite (split_arg_plain _ Hp).
  apply negb_true_iff in Hk. rewrite Hk. reflexivity.
Qed.

Lemma format_pair (rt : runtime) (params : gmap string value) (template : string) :
  format rt template params
  = match render rt params (fst (scan SText template)) with
    | Ok s =>
        match snd (scan SText template) with
        | None => Ok s
        | Some msg => Raise (ValueError msg)
        end
    | Raise e => Raise e
    end.
Proof. unfold format. now destruct (scan SText template). Qed.

Lemma format_field (rt : runtime) (params : gmap string value) (a name rest : string) :
  brace_free a = true -> keyword_name name = true ->
  format rt (a +:+ String "{" (name +:+ String "}" rest)) params
  = match params !! name with
    | None => Raise (KeyError name)
    | Some v =>
        match format rt rest params with
        | Ok r => Ok (a +:+ py_str v +:+ r)
        | Raise e => Raise e
        end
    end.
Proof.
  intros Ha Hn. rewrite !format_pair, scan_text by exact Ha.
  rewrite scan_field by exact Hn. cbn [fst snd].
  rewrite render_chars. cbn [render]. rewrite render_field_keyword by exact Hn.
  destruct (params !! name) as [v|]; [| reflexivity].
  destruct (render rt params (fst (scan SText rest))) as [r|e]; [| reflexivity].
  now destruct (snd (scan SText rest)).
Qed.

Lemma is_brace_cases (c : ascii) :
  is_brace c = true -> c = "{"%char \/ c = "}"%char.
Proof.
  unfold is_brace. intros H. apply orb_prop in H as [H|H];
    apply Ascii.eqb_eq in H; auto.
Qed.

Lemma scan_escaped (t : string) : scan SText (escape_braces t) = (chars t, None).
Proof.
  induction t as [|c t IH]; [reflexivity |].
  cbn [escape_braces chars]. destruct (is_brace c) eqn:Hc.
  - destruct (is_brace_cases c Hc) as [->| ->]; cbn; now rewrite IH.
  - unfold is_brace in Hc. apply orb_false_iff in Hc as [H1 H2].
    cbn [scan]. now rewrite H1, H2, IH.
Qed.

Lemma format_escaped (rt : runtime) (params : gmap string value) (t : string) :
  format rt (escape_braces t) params = Ok t.
Proof.
  rewrite format_pair, scan_escaped. cbn [fst snd].
  pose proof (render_chars rt params t []) as H. rewrite app_nil_r in H.
  rewrite H. cbn [render]. now rewrite sapp_empty_r.
Qed.

Lemma escape_brace_free (t : string) : brace_free t = true -> escape_braces t = t.
Proof.
  induction t as [|c t IH]; intros H; [reflexivity |].
  cbn [brace_free] in H. apply andb_prop in H as [Hc H].
  cbn [escape_braces]. apply negb_true_iff in Hc. now rewrite Hc, IH.
Qed.

(** *** Templates whose fields are plain names *)

Lemma arg_name_plain (name : string) : plain_name name = true -> arg_name name = name.
Proof. intros H. unfold arg_name. now rewrite split_arg_plain. Qed.

Lemma render_plain_ok (rt : runtime) (params : gmap string value) (ps : list piece) :
  forallb plain_piece ps = true ->
  (is_ok (render rt params ps) = true
   <-> forall name, In name (piece_names ps) -> is_Some (params !! name)).
Proof.
  induction ps as [|pc ps IH]; intros Hp.
  - cbn. split; [intros _ name [] | reflexivity].
  - cbn [forallb] in Hp. apply andb_prop in Hp as [Hpc Hp].
    specialize (IH Hp). destruct pc as [c|name conv spec]; cbn [render piece_names flat_map].
    + destruct (render rt params ps) as [s|e]; cbn [is_ok] in *; exact IH.
    + cbn [plain_piece] in Hpc. destruct conv; [discriminate |].
      destruct spec; [| discriminate].
      pose proof Hpc as Hk. unfold keyword_name in Hk. apply andb_prop in Hk as [Hn _].
      rewrite render_field_keyword by exact Hpc. rewrite arg_name_plain by exact Hn.
      cbn [app]. destruct (params !! name) as [v|] eqn:Hv.
      * destruct (render rt params ps) as [s|e]; cbn [is_ok] in *; split.
        -- intros _ nm [<-|Hin]; [now rewrite Hv | now apply IH].
        -- reflexivity.
        -- discriminate.
        -- intros H. apply IH. intros nm Hin. apply H. now right.
      * cbn [is_ok]. split; [discriminate |].
        intros H. destruct (H name (or_introl eq_refl)) as [v Hv']. congruence.
Qed.

Lemma render_plain_mono (rt : runtime) (params params' : gmap string value)
    (ps : list piece) (s : string) :
  forallb plain_piece ps = true -> params ⊆ params' ->
  render rt params ps = Ok s -> render rt params' ps = Ok s.
Proof.
  intros Hp Hsub. revert s. induction ps as [|pc ps IH]; intros s; [exact id |].
  cbn [forallb] in Hp. apply andb_prop in Hp as [Hpc Hp]. specialize (IH Hp).
  destruct pc as [c|name conv spec]; cbn [render].
  - destruct (render rt params ps) as [r|e]; [| discriminate].
    now rewrite (IH r eq_refl).
  - cbn [plain_piece] in Hpc. destruct conv; [discriminate |].
    destruct spec; [| discriminate].
    rewrite !render_field_keyword by exact Hpc.
    destruct (params !! name) as [v|] eqn:Hv; [| discriminate].
    rewrite (lookup_weaken _ _ _ _ Hv Hsub).
    destruct (render rt params ps) as [r|e]; [| discriminate].
    now rewrite (IH r eq_refl).
Qed.

Lemma run_params_keys (workingDir runDir name : string) (n : Z) :
  is_Some (GLM1.run_params workingDir runDir n !! name) <-> In name GLM1_keys.
Proof.
  rewrite <- elem_of_dom, <- list_elem_of_In.
  unfold GLM1.run_params, GLM1.set_EV_paths. cbv zeta.
  rewrite !dom_insert_L, dom_empty_L.
  unfold GLM1_keys. rewrite !elem_of_union, !elem_of_singleton, !elem_of_cons.
  rewrite elem_of_empty, elem_of_nil. reflexivity.
Qed.

Lemma plain_template_ok (rt : runtime) (template : string)
    (params : gmap string value) :
  plain_template template = true ->
  (is_ok (format rt template params) = true
   <-> forall name, In name (placeholders template) -> is_Some (params !! name)).
Proof.
  unfold plain_template, placeholders. intros Hp. rewrite format_pair.
  destruct (scan SText template) as [ps [msg|]] eqn:Hs; [discriminate |].
  cbn [fst snd]. rewrite <- (render_plain_ok rt params ps Hp).
  now destruct (render rt params ps).
Qed.

Lemma plain_template_mono (rt : runtime) (template : string)
    (params params' : gmap string value) (doc : string) :
  plain_template template = true -> params ⊆ params' ->
  format rt template params = Ok doc -> format rt template params' = Ok doc.
Proof.
  unfold plain_template. intros Hp Hsub. rewrite !format_pair.
  destruct (scan SText template) as [ps [msg|]] eqn:Hs; [discriminate |].
  cbn [fst snd].
  destruct (render rt params ps) as [s|e] eqn:Hr; [| discriminate].
  now rewrite (render_plain_mono rt params params' ps s Hp Hsub Hr).
Qed.

End FmtMore.

(** ** Pattern rewriting, continued *)

Module ReMore.
Import PyStr Py Re Common Props MoreProps StrFacts ReFacts PyFacts.

(** The scan at a target line: the line is rewritten and the scan goes on
    behind it. *)
Lemma sub_from_match (p : pattern) (items : list repl_item) (old post : string) :
  key p <> EmptyString ->
  single_line old = true -> single_line (tail p) = true -> at_line_end post ->
  sub_from p items 0 (key p +:+ old +:+ tail p +:+ post)
  = expand p old items +:+ sub_from p items 0 post.
Proof.
  intros Hk Ho Ht Hp.
  pose proof (match_here_target p old post Ho Ht Hp) as Hm.
  destruct (key p) as [|c k] eqn:Ek; [contradiction |].
  cbn [String.append String.length Nat.add] in *. cbn [sub_from]. rewrite Hm.
  f_equal.
  replace (k +:+ old +:+ tail p +:+ post) with ((k +:+ old +:+ tail p) +:+ post)
    by now rewrite !sapp_assoc.
  replace (String.length k + String.length old + String.length (tail p))
    with (String.length (k +:+ old +:+ tail p))
    by (rewrite !slength_app; lia).
  apply sub_from_skip.
Qed.

Lemma search_sound (p : pattern) (s v : string) :
  re_search_value p s = Some v -> occurs_in p s.
Proof.
  induction s as [|c s IH]; cbn [re_search_value].
  - destruct (match_here p EmptyString) as [[v' n]|] eqn:H; [| discriminate].
    intros _. eauto using match_here_occurs.
  - destruct (match_here p (String c s)) as [[v' n]|] eqn:H.
    + intros _. eauto using match_here_occurs.
    + intros Hs. apply occurs_in_cons. auto.
Qed.

Lemma search_none (p : pattern) (s : string) :
  ~ occurs_in p s -> re_search_value p s = None.
Proof.
  intros Hno. destruct (re_search_value p s) as [v|] eqn:H; [| reflexivity].
  exfalso. eauto using search_sound.
Qed.

End ReMore.

(** ** Manifests and run folders, continued *)

Module LinesMore.
Import PyStr Py Props MoreProps StrFacts LinesFacts.

Lemma file_lines_nil (s : string) : file_lines s = [] -> s = EmptyString.
Proof.
  destruct s as [|c s]; [reflexivity |]. cbn [file_lines].
  destruct (Ascii.eqb c nl); [discriminate |].
  destruct (file_lines s); discriminate.
Qed.

Lemma file_lines_count (s : string) :
  List.length (file_lines s) = count_nl s + unterminated s.
Proof.
  induction s as [|c s IH]; [reflexivity |].
  cbn [file_lines count_nl]. destruct (Ascii.eqb_spec c nl) as [->|Hc].
  - cbn [List.length]. rewrite IH. unfold unterminated.
    destruct s as [|d s]; [reflexivity |]. cbn [ends_with_char]. lia.
  - destruct (file_lines s) as [|l ls] eqn:El.
    + apply file_lines_nil in El. subst s. cbn.
      destruct (Ascii.eqb_spec c nl); [contradiction | reflexivity].
    + cbn [List.length] in *. rewrite IH. unfold unterminated.
      destruct s as [|d s]; [discriminate |]. cbn [ends_with_char]. lia.
Qed.

Lemma file_lines_cons (body rest : string) :
  single_line body = true ->
  file_lines (body +:+ String nl rest) = (body +:+ String nl EmptyString) :: file_lines rest.
Proof.
  induction body as [|c body IH]; intros Hb; cbn [String.append].
  - reflexivity.
  - cbn [single_line] in Hb. apply andb_prop in Hb as [Hc Hb].
    cbn [file_lines]. apply negb_true_iff in Hc. rewrite Hc, (IH Hb). reflexivity.
Qed.

Lemma file_lines_last (body : string) :
  single_line body = true -> body <> EmptyString -> file_lines body = [body].
Proof.
  induction body as [|c body IH]; intros Hb Hne; [contradiction |].
  cbn [single_line] in Hb. apply andb_prop in Hb as [Hc Hb].
  cbn [file_lines]. apply negb_true_iff in Hc. rewrite Hc.
  destruct body as [|d body]; [reflexivity |].
  now rewrite (IH Hb).
Qed.

Lemma drop_app_length (a b : string) : drop (String.length a) (a +:+ b) = b.
Proof. induction a as [|c a IH]; [now destruct b | exact IH]. Qed.

Lemma last_n_app (n : nat) (a b : string) :
  String.length b = n -> last_n n (a +:+ b) = b.
Proof.
  intros <-. unfold last_n. rewrite slength_app.
  replace (String.length a + String.length b - String.length b) with (String.length a)
    by lia.
  apply drop_app_length.
Qed.

Lemma drop_length (n : nat) (s : string) :
  String.length (drop n s) = String.length s - n.
Proof.
  revert s; induction n as [|n IH]; intros s; cbn [drop].
  - lia.
  - destruct s as [|c s]; [reflexivity |]. cbn [String.length]. now rewrite IH.
Qed.

Lemma last_n_length (n : nat) (s : string) :
  n <= String.length s -> String.length (last_n n s) = n.
Proof. intros H. unfold last_n. rewrite drop_length. lia. Qed.

Lemma run_folder_shape (workingDir cur_nifii : string) :
  exists x, path_join workingDir ("run" +:+ cur_nifii) = x +:+ "run" +:+ cur_nifii.
Proof.
  unfold path_join. cbn [starts_with strip_prefix sep String.append].
  change (Ascii.eqb slash "r") with false. cbn iota.
  destruct workingDir as [|c wd]; [now exists EmptyString |].
  destruct (ends_with_char slash (String c wd)).
  - now exists (String c wd).
  - exists (String c wd +:+ sep). now rewrite !sapp_assoc.
Qed.

End LinesMore.

(** ** Replacement texts *)

Module TemplateMore.
Import PyStr Py Re ReTemplate MoreProps StrFacts.

Lemma parse_plain (s : string) :
  no_backslash s = true ->
  parse TLit s = match s with EmptyString => Ok [] | _ => Ok [RLit s] end.
Proof.
  induction s as [|c r IH]; [reflexivity |].
  cbn [no_backslash parse]. intros H. apply andb_true_iff in H as [Hc Hr].
  apply negb_true_iff in Hc. rewrite Hc, (IH Hr).
  now destruct r.
Qed.

Lemma parse_plain_lit (c : ascii) (r : string) :
  no_backslash (String c r) = true -> parse TLit (String c r) = Ok [RLit (String c r)].
Proof. intros H. now rewrite parse_plain. Qed.

Lemma no_backslash_app (a b : string) :
  no_backslash (a +:+ b) = no_backslash a && no_backslash b.
Proof.
  induction a as [|c a IH]; [reflexivity |].
  cbn [String.append no_backslash]. now rewrite IH, andb_assoc.
Qed.

Lemma digit_not_backslash (c : ascii) : Fmt.is_digit c = true -> Ascii.eqb c backslash = false.
Proof.
  destruct (Ascii.eqb_spec c backslash) as [->|]; [| reflexivity].
  vm_compute. discriminate.
Qed.

(** A reference to group 1 written with one digit, in front of a text
    that does not begin with a digit. *)
Lemma parse_ref (v : string) :
  no_backslash v = true -> begins_with_digit v = false -> v <> EmptyString ->
  parse TLit ("\1" +:+ v) = Ok [RGroup 1; RLit v].
Proof.
  intros Hv Hd Hne. destruct v as [|x r]; [contradiction |].
  cbn [begins_with_digit] in Hd.
  change (parse TLit ("\1" +:+ String x r)) with (parse (TRef "1") (String x r)).
  cbn [parse]. rewrite Hd.
  pose proof Hv as Hv'. cbn [no_backslash] in Hv'.
  apply andb_true_iff in Hv' as [Hx Hr]. apply negb_true_iff in Hx. rewrite Hx.
  rewrite (parse_plain r Hr). now destruct r.
Qed.

(** A reference to group 1 written with its name, in front of any text
    without a backslash. *)
Lemma parse_named_ref (v : string) :
  no_backslash v = true -> v <> EmptyString ->
  parse TLit ("\g<1>" +:+ v) = Ok [RGroup 1; RLit v].
Proof.
  intros Hv Hne. destruct v as [|x r]; [contradiction |].
  change (parse TLit ("\g<1>" +:+ String x r))
    with (named "1" (parse TLit (String x r))).
  now rewrite parse_plain_lit.
Qed.

(** One digit after the backslash followed by another digit is not a
    reference to group 1. *)
Lemma parse_ref_digit (v : string) :
  begins_with_digit v = true ->
  forall items, parse TLit ("\1" +:+ v) <> Ok (RGroup 1 :: items).
Proof.
  destruct v as [|d r]; [discriminate |]. cbn [begins_with_digit]. intros Hd items.
  change (parse TLit ("\1" +:+ String d r)) with (parse (TRef "1") (String d r)).
  cbn [parse]. rewrite Hd.
  destruct r as [|x r']; [cbn; discriminate |].
  cbn [parse]. destruct (_ && _); [| discriminate].
  cbv zeta. destruct (_ <=? 255); [| discriminate].
  unfold lit. destruct (parse TLit r') as [[|[n|s] its]|e]; discriminate.
Qed.

End TemplateMore.

(** ** The drivers, continued *)

Module DriverMore.
Import PyStr Py Re Common Props MoreProps PyFacts DriverFacts.
Local Open Scope py_scope.


End DriverMore.

(** ** The properties *)

Section Extras.
Import PyStr Py Re Fmt Common Props Runs MoreProps Demo Demo2 ReTemplate.
Import StrFacts ReFacts FmtFacts LinesFacts PyFacts DriverFacts MainFacts.
Import FmtMore ReMore LinesMore TemplateMore DriverMore.

(** X1. Filling goes from left to right, one field at a time: literal
    text without braces is kept, a field that is a keyword name gives the
    [str] of its value, and the rest of the template is filled the same
    way.  A name without a key raises its [KeyError], whatever follows. *)
Theorem X1_fill_in_template_field (rt : runtime) (params : gmap string value)
    (a name rest : string) :
  brace_free a = true -> keyword_name name = true ->
  GLM1.fill_in_template rt (a +:+ String "{" (name +:+ String "}" rest)) params
  = match params !! name with
    | None => Raise (KeyError name)
    | Some v =>
        match GLM1.fill_in_template rt rest params with
        | Ok r => Ok (a +:+ py_str v +:+ r)
        | Raise e => Raise e
        end
    end.
Proof. intros Ha Hn. unfold GLM1.fill_in_template. now apply format_field. Qed.

Lemma X1_witness :
  GLM1.fill_in_template rt_ok "set fmri(npts) {numVolumes}"
    (GLM1.run_params "/work" "/work/run05" 120)
  = Ok "set fmri(npts) 120".
Proof.
  exact (X1_fill_in_template_field rt_ok (GLM1.run_params "/work" "/work/run05" 120)
           "set fmri(npts) " "numVolumes" EmptyString eq_refl eq_refl).
Defined.

(** X2. Doubled braces are the way to write a brace: a text with each of
    its braces doubled is filled to the text itself, whatever [params]
    holds; so a template without any brace comes back as it is. *)
Theorem X2_fill_in_template_escaped (rt : runtime) (params : gmap string value)
    (t : string) :
  GLM1.fill_in_template rt (escape_braces t) params = Ok t
  /\ (brace_free t = true -> GLM1.fill_in_template rt t params = Ok t).
Proof.
  unfold GLM1.fill_in_template. split; [apply format_escaped |].
  intros Hb. rewrite <- (escape_brace_free t Hb) at 1. apply format_escaped.
Qed.

Lemma X2_witness :
  brace_free design_template = true
  /\ GLM1.fill_in_template rt_ok design_template ∅ = Ok design_template.
Proof.
  split; [reflexivity |].
  exact (proj2 (X2_fill_in_template_escaped rt_ok ∅ design_template) eq_refl).
Defined.

(** X3. For a template whose fields are all keyword names between braces,
    [fill_in_template] returns a document exactly when [params] has a key
    for every placeholder, and then keys beyond the placeholders make no
    difference: with more keys the document is the same. *)
Theorem X3_plain_template_filled (rt : runtime) (template : string)
    (params : gmap string value) :
  plain_template template = true ->
  (is_ok (GLM1.fill_in_template rt template params) = true
   <-> forall name, In name (placeholders template) -> is_Some (params !! name))
  /\ (forall params' doc,
        params ⊆ params' ->
        GLM1.fill_in_template rt template params = Ok doc ->
        GLM1.fill_in_template rt template params' = Ok doc).
Proof.
  intros Hp. unfold GLM1.fill_in_template. split.
  - now apply plain_template_ok.
  - intros params' doc. now apply plain_template_mono.
Qed.

Lemma X3_witness :
  plain_template GLM1_template = true
  /\ is_ok (GLM1.fill_in_template rt_ok GLM1_template
              (GLM1.run_params "/work" "/work/run05" 120)) = true.
Proof.
  split; [reflexivity |].
  refine (proj2 (proj1 (X3_plain_template_filled rt_ok GLM1_template
                          (GLM1.run_params "/work" "/work/run05" 120) eq_refl)) _).
  intros name Hin. vm_compute in Hin.
  destruct Hin as [<-|[<-|[]]]; vm_compute; eauto.
Defined.

(** X4. The keys of [params] are the same in every run: [session_GLM]
    fills a template of keyword-name fields exactly when each placeholder
    is one of its twenty-six names, whatever the working directory, the
    folder of the run and the volume count. *)
Theorem X4_session_GLM_placeholders (rt : runtime) (template workingDir runDir : string)
    (n : Z) :
  plain_template template = true ->
  (is_ok (GLM1.fill_in_template rt template (GLM1.run_params workingDir runDir n)) = true
   <-> forall name, In name (placeholders template) -> In name GLM1_keys).
Proof.
  intros Hp. unfold GLM1.fill_in_template.
  rewrite (plain_template_ok rt template _ Hp).
  split; intros H name Hin; apply (run_params_keys workingDir runDir name n); auto.
Qed.

Lemma X4_witness :
  plain_template GLM1_template_with_TR = true
  /\ is_ok (GLM1.fill_in_template rt_ok GLM1_template_with_TR
              (GLM1.run_params "/work" "/work/run05" 120)) = false.
Proof.
  split; [reflexivity |].
  apply not_true_is_false. intros Hok.
  apply (proj1 (X4_session_GLM_placeholders rt_ok GLM1_template_with_TR
                  "/work" "/work/run05" 120 eq_refl)) with (name := "TR_duration") in Hok.
  - vm_compute in Hok. repeat (destruct Hok as [Hok|Hok]; [discriminate |]). exact Hok.
  - vm_compute. auto.
Defined.

(** X5. [re.sub] rewrites every line that holds the key, not the first
    one only: once the first target line is rewritten, the text behind it
    is rewritten by the same rule. *)
Theorem X5_re_sub_rewrites_each_line (rt : runtime) (p : pattern)
    (pre old new post repl : string) :
  compile_template rt repl = Ok [RGroup 1; RLit (new +:+ tail p)] ->
  key p <> EmptyString -> first_at p pre ->
  single_line old = true -> single_line (tail p) = true -> at_line_end post ->
  exists post',
    re_sub rt p repl post = Ok post'
    /\ re_sub rt p repl (pre +:+ key p +:+ old +:+ tail p +:+ post)
       = Ok (pre +:+ key p +:+ new +:+ tail p +:+ post').
Proof.
  intros Hc Hk Hfirst Hold Htail Hpost. unfold re_sub. rewrite Hc.
  eexists. split; [reflexivity |]. f_equal.
  rewrite sub_from_before by exact Hfirst.
  rewrite sub_from_match by assumption.
  cbn [expand expand_item]. now rewrite sapp_empty_r, !sapp_assoc.
Qed.

Lemma X5_witness :
  re_sub rt_ok FEAT.pat_npts (FEAT.repl_number "120") two_npts
  = Ok ("set fmri(npts) 120" +:+ String nl ("set fmri(npts) 120" +:+ String nl EmptyString)).
Proof.
  destruct (X5_re_sub_rewrites_each_line rt_ok FEAT.pat_npts EmptyString "1" "120"
              (String nl ("set fmri(npts) 2" +:+ String nl EmptyString))
              (FEAT.repl_number "120") eq_refl)
    as (post' & Hpost & Hall).
  - discriminate.
  - apply first_at_check. reflexivity.
  - reflexivity.
  - reflexivity.
  - right. eexists. reflexivity.
  - vm_compute in Hpost. injection Hpost as <-. exact Hall.
Defined.

(** X6. The set-up of the FEAT driver fails without having touched
    anything when [directories.ini] is missing, when no line of it has
    [PD_dir=] followed by a quoted text ([re.search] gives [None], whose
    [group] is the [AttributeError]), and when the template is missing. *)
Theorem X6_setup_fails_cleanly (rt : runtime) (w : world) :
  (files (fs w) !! resolve w (path_join (cwd w) "directories.ini") = None ->
   FEAT.setup rt w
   = (Raise (OSError "FileNotFoundError" (resolve w (path_join (cwd w) "directories.ini"))),
      w))
  /\ (forall directories,
        files (fs w) !! resolve w (path_join (cwd w) "directories.ini") = Some directories ->
        ~ occurs_in FEAT.pat_PD_dir directories ->
        FEAT.setup rt w = (Raise AttributeError, w))
  /\ (forall directories PD_dir,
        files (fs w) !! resolve w (path_join (cwd w) "directories.ini") = Some directories ->
        re_search_value FEAT.pat_PD_dir directories = Some PD_dir ->
        files (fs w) !! resolve w (FEAT.template_path (cwd w)) = None ->
        FEAT.setup rt w
        = (Raise (OSError "FileNotFoundError" (resolve w (FEAT.template_path (cwd w)))), w)).
Proof.
  unfold FEAT.setup, bind, getcwd, read_file, ret, raise. cbn [fst snd].
  split; [| split].
  - now intros ->.
  - intros directories -> Hno. now rewrite (search_none _ _ Hno).
  - intros directories PD_dir -> -> Ht. cbn [fst snd]. now rewrite Ht.
Qed.

Lemma X6_witness :
  FEAT.setup rt_ok session_without_PD_dir = (Raise AttributeError, session_without_PD_dir).
Proof.
  refine (proj1 (proj2 (X6_setup_fails_cleanly rt_ok session_without_PD_dir))
            "RAW_dir=/data/raw" eq_refl _).
  intros Hocc.
  apply (search_complete FEAT.pat_PD_dir "RAW_dir=/data/raw" eq_refl) in Hocc.
  apply Hocc. reflexivity.
Defined.

(** X7. The set-up goes through whenever [directories.ini] gives a
    [PD_dir], the template is there to be read and the replacement text
    compiles; it then changes one thing, the text of the template file:
    the other files, the directories and the working directory are as
    before. *)
Theorem X7_setup_changes_the_template_only (rt : runtime) (w : world)
    (directories PD_dir t new : string) :
  files (fs w) !! resolve w (path_join (cwd w) "directories.ini") = Some directories ->
  re_search_value FEAT.pat_PD_dir directories = Some PD_dir ->
  files (fs w) !! resolve w (FEAT.template_path (cwd w)) = Some t ->
  re_sub rt FEAT.pat_highres
    (FEAT.repl_quoted (path_join (abspath rt (cwd w) PD_dir) FEAT.STRUCTURALFILENAME)) t
  = Ok new ->
  resolve w (FEAT.template_path (cwd w)) ∉ dirs (fs w) ->
  FEAT.setup rt w
  = (Ok (cwd w),
     World (cwd w)
       (Fsys (<[resolve w (FEAT.template_path (cwd w)) := new]> (files (fs w)))
             (dirs (fs w)))
       (trace w ++ [EvWrite (resolve w (FEAT.template_path (cwd w))) new])).
Proof.
  intros Hd Hpd Ht Hnew Hdir.
  unfold FEAT.setup, bind, getcwd, read_file, write_file, lift, ret, raise.
  cbn [fst snd]. rewrite Hd, Hpd. cbn [fst snd]. rewrite Ht, Hnew. cbn [fst snd].
  destruct (decide (resolve w (FEAT.template_path (cwd w)) ∈ dirs (fs w)));
    [contradiction |].
  rewrite Ht. rewrite (bool_decide_eq_true_2 (is_Some (Some t))) by eauto.
  reflexivity.
Qed.

Lemma X7_witness :
  exists new,
    FEAT.setup rt_ok session
    = (Ok "/work",
       World "/work"
         (Fsys (<["/work/design_template_main.fsf" := new]> (files (fs session)))
               (dirs (fs session)))
         [EvWrite "/work/design_template_main.fsf" new]).
Proof.
  eexists.
  refine (X7_setup_changes_the_template_only rt_ok session _ "/data/PD" design_template _
            eq_refl eq_refl eq_refl eq_refl _).
  vm_compute. intros H. discriminate H.
Defined.

(** X8. The number of runs of a manifest is the number of its line
    feeds, and one more when the file does not end with a line feed: a
    last line is a run with or without its terminator, an empty file gives
    no run. *)
Theorem X8_number_of_runs (workingDir content : string) :
  List.length (GLM1.input_folders workingDir (file_lines content))
  = count_nl content + unterminated content.
Proof.
  rewrite input_folders_map, length_map. apply file_lines_count.
Qed.

(** X9. [session_GLM] reads the run identifier back from the last two
    characters of the folder name that [session_GLM_CLI] built; that is
    the identifier of the manifest line exactly when the line gave two
    characters. *)
Theorem X9_run_identifier_round_trip (workingDir inputFilename : string) :
  last_n 2 (path_join workingDir ("run" +:+ take 2 inputFilename)) = take 2 inputFilename
  <-> String.length (take 2 inputFilename) = 2.
Proof.
  destruct (run_folder_shape workingDir (take 2 inputFilename)) as [x ->].
  split.
  - intros H. rewrite <- H at 1. apply last_n_length.
    rewrite !slength_app. cbn [String.length]. lia.
  - intros H. rewrite <- sapp_assoc. now apply last_n_app.
Qed.

Lemma X9_witness :
  last_n 2 (path_join "/work" ("run" +:+ take 2 "05_run.nii")) = take 2 "05_run.nii".
Proof.
  exact (proj2 (X9_run_identifier_round_trip "/work" "05_run.nii") eq_refl).
Defined.


(** X11. The replacement texts of the FEAT driver, as [re] reads them.
    For a value without a backslash, the text for a quoted path is a
    reference to group 1 followed by the value and the closing quote,
    provided the value does not begin with a digit; the text for a number,
    which writes the reference with the name of the group, is the
    reference followed by the value whatever its first character.  Written
    with one digit in front of a value that begins with a digit, the
    reference would not be one to group 1. *)
Theorem X11_replacement_texts (v : string) :
  no_backslash v = true ->
  (begins_with_digit v = false ->
   parse_template (FEAT.repl_quoted v) = Ok [RGroup 1; RLit (v +:+ dquote)])
  /\ (v <> EmptyString ->
      parse_template (FEAT.repl_number v) = Ok [RGroup 1; RLit v])
  /\ (begins_with_digit v = true ->
      forall items, parse_template ("\1" +:+ v) <> Ok (RGroup 1 :: items)).
Proof.
  intros Hv. unfold parse_template, FEAT.repl_quoted, FEAT.repl_number.
  split; [| split].
  - intros Hd. apply parse_ref.
    + now rewrite no_backslash_app, Hv.
    + now destruct v.
    + now destruct v.
  - intros Hne. now apply parse_named_ref.
  - apply parse_ref_digit.
Qed.

Lemma X11_witness :
  parse_template (FEAT.repl_quoted "/work/run05/05-preprocess.feat")
  = Ok [RGroup 1; RLit ("/work/run05/05-preprocess.feat" +:+ dquote)]
  /\ parse_template (FEAT.repl_number "120") = Ok [RGroup 1; RLit "120"]
  /\ parse_template ("\1" +:+ "120") <> Ok [RGroup 1; RLit "120"].
Proof.
  split; [| split].
  - exact (proj1 (X11_replacement_texts "/work/run05/05-preprocess.feat" eq_refl) eq_refl).
  - refine (proj1 (proj2 (X11_replacement_texts "120" eq_refl)) _). discriminate.
  - exact (proj2 (proj2 (X11_replacement_texts "120" eq_refl)) eq_refl [RLit "120"]).
Defined.



(** X13. The FEAT driver reads the manifest after it has rewritten the
    template.  Without a manifest the script ends with the
    [FileNotFoundError] of [open] in the world its set-up left, the
    template rewritten and no run made; with an empty manifest it returns
    normally in that world. *)
Theorem X13_main_without_runs (rt : runtime) (w w0 : world) (workingDir : string) :
  FEAT.setup rt w = (Ok workingDir, w0) ->
  (files (fs w0) !! resolve w0 (path_join workingDir "to_process_main.txt") = None ->
   FEAT.main rt w
   = (Raise (OSError "FileNotFoundError"
               (resolve w0 (path_join workingDir "to_process_main.txt"))), w0))
  /\ (files (fs w0) !! resolve w0 (path_join workingDir "to_process_main.txt")
      = Some EmptyString ->
      FEAT.main rt w = (Ok tt, w0)).
Proof.
  intros Hs. unfold FEAT.main, bind. rewrite Hs. unfold read_file.
  split; intros ->; reflexivity.
Qed.

Lemma X13_witness :
  FEAT.main rt_ok session_with_empty_manifest
  = (Ok tt, snd (FEAT.setup rt_ok session_with_empty_manifest)).
Proof.
  refine (proj2 (X13_main_without_runs rt_ok session_with_empty_manifest
                   (snd (FEAT.setup rt_ok session_with_empty_manifest)) "/work" _) _).
  - vm_compute. reflexivity.
  - vm_compute. reflexivity.
Defined.

(** X14. The run of the FEAT driver whose first helper fails, step by
    step.  When the folder is made, the template copied and read back and
    the three paths rewritten, and the helper that counts the volumes then
    exits with the status [rc] other than 0, the run ends with the
    [RuntimeError] that shows [rc], in the world the helper left: the
    events are the copy and the helper, the files are those the helper
    left, and the working directory has not changed. *)
Theorem X14_first_helper_fails (rt : runtime) (workingDir inputFilename : string)
    (w : world) (design design1 design2 design3 : string)
    (sargs : list string) (rc : Z) (out : string) (fs' : fsys) :
  let cur_nifii := take 2 inputFilename in
  let started := FEAT_helper_world workingDir cur_nifii w in
  fst (makedirs (FEAT.block_dir workingDir cur_nifii) w) = Ok tt ->
  fst (copy (FEAT.template_path workingDir) (FEAT.block_design_path workingDir cur_nifii)
         (snd (makedirs (FEAT.block_dir workingDir cur_nifii) w))) = Ok tt ->
  files (fs started) !! resolve started (FEAT.block_design_path workingDir cur_nifii)
  = Some design ->
  re_sub rt FEAT.pat_feat_files
    (FEAT.repl_quoted (FEAT.input_file_root workingDir cur_nifii)) design = Ok design1 ->
  re_sub rt FEAT.pat_outputdir
    (FEAT.repl_quoted (path_join (FEAT.block_dir workingDir cur_nifii)
                         (cur_nifii +:+ "-preprocess.feat"))) design1 = Ok design2 ->
  re_sub rt FEAT.pat_st_file
    (FEAT.repl_quoted (path_join (FEAT.block_dir workingDir cur_nifii) "slicetimes.txt"))
    design2 = Ok design3 ->
  shlex_split rt (volume_command workingDir cur_nifii) = Ok sargs ->
  spawn rt sargs true started = (Ok (rc, out), fs') ->
  rc <> 0%Z ->
  exists pre post,
    FEAT.process_run rt workingDir inputFilename w
    = (Raise (RuntimeError (pre +:+ "returncode=" +:+ pretty rc +:+ post)),
       after_process started sargs fs').
Proof.
  intros cur_nifii started Hm Hc Hr H1 H2 H3 Hs Hp Hrc.
  unfold FEAT.process_run. fold cur_nifii. unfold bind at 1.
  unfold started, FEAT_helper_world in *.
  destruct (makedirs (FEAT.block_dir workingDir cur_nifii) w) as [rm w1].
  cbn [fst snd] in *. subst rm.
  unfold bind at 1. unfold FEAT.create_fsf. unfold bind at 1.
  destruct (copy (FEAT.template_path workingDir)
              (FEAT.block_design_path workingDir cur_nifii) w1) as [rc0 w2].
  cbn [fst snd] in *. subst rc0.
  unfold bind at 1, read_file at 1. rewrite Hr.
  unfold bind at 1, lift at 1. rewrite H1.
  unfold bind at 1, lift at 1. rewrite H2.
  unfold bind at 1, lift at 1. rewrite H3.
  unfold bind at 1. fold (volume_command workingDir cur_nifii).
  unfold run_command, bind, lift, subprocess_run, ret, raise.
  rewrite Hs, Hp. cbn [returncode].
  destruct (Z.eqb_spec rc 0); [contradiction |]. cbn [negb].
  exists ("Received non-zero return code: CompletedProcess(args="
            +:+ repr_args rt sargs +:+ ", ").
  eexists. unfold repr_completed, after_process. cbn [args returncode stdout].
  rewrite !sapp_assoc. reflexivity.
Qed.

Lemma X14_witness :
  exists pre post,
    FEAT.process_run (rt_with (fails "getNumVolume.sh")) "/work" "05_run.nii" session
    = (Raise (RuntimeError (pre +:+ "returncode=" +:+ pretty 1%Z +:+ post)),
       after_process (FEAT_helper_world "/work" "05" session)
         ["sh"; "getNumVolume.sh"; "/work/05.nii.gz"]
         (fs (FEAT_helper_world "/work" "05" session))).
Proof.
  eapply (X14_first_helper_fails (rt_with (fails "getNumVolume.sh")) "/work" "05_run.nii"
            session _ _ _ _ ["sh"; "getNumVolume.sh"; "/work/05.nii.gz"] 1%Z "120").
  - vm_compute. reflexivity.
  - vm_compute. reflexivity.
  - vm_compute. reflexivity.
  - vm_compute. reflexivity.
  - vm_compute. reflexivity.
  - vm_compute. reflexivity.
  - reflexivity.
  - vm_compute. reflexivity.
  - discriminate.
Defined.

End Extras.
